(** * IRIS-SOAR: the alert/case correlation core

    A shallow embedding of the parts of [lib/generic_helper.py],
    [lib/class_helper.py] and [isoar_case_worker.py] that keep the case
    model consistent: the timeline store, the indicator extractor, the audit
    trail, the threat-intel score record, the whitelist filter and the
    playbook dispatch loop.

    Python objects are mutable and a raised exception keeps whatever was
    written before it, so effectful code is written in a small monad that
    threads the object being mutated and the log, and that keeps both when
    an exception is raised. *)

From stdpp Require Import functions base strings list gmap sorting pretty.
From Stdlib Require Import ZArith.

(** ** Python exceptions, results and the monad of effectful code *)

Module Py.

(** The exception classes the modelled code raises or catches.  The last
    two derive from [BaseException] only. *)
Inductive exn :=
  | AttributeError | IndexError | KeyError | TypeError | ValueError
  | UnboundLocalError | SystemError | ModuleNotFoundError | ImportError
  | RuntimeError | UserException (name : string)
  | KeyboardInterrupt | SystemExit.

(** [isinstance(e, Exception)], the test of [except Exception]. *)
Definition is_Exception (e : exn) : bool :=
  match e with
  | KeyboardInterrupt | SystemExit => false
  | _ => true
  end.

(** [isinstance(e, ImportError)]: [ModuleNotFoundError] is a subclass. *)
Definition is_ImportError (e : exn) : bool :=
  match e with
  | ModuleNotFoundError | ImportError => true
  | _ => false
  end.

Inductive res (A : Type) :=
  | Ok (a : A)
  | Raise (e : exn).
Arguments Ok {A} a.
Arguments Raise {A} e.

Inductive level := DEBUG | INFO | WARNING | ERROR.

Record log_entry := LogEntry { lvl : level; msg : string }.

(** What a call leaves behind: its result, the mutated object and the log. *)
Record out (St A : Type) := Out {
  result : res A;
  state : St;
  logged : list log_entry
}.
Arguments Out {St A} result state logged.
Arguments result {St A} o.
Arguments state {St A} o.
Arguments logged {St A} o.

Definition M (St A : Type) : Type := St → list log_entry → out St A.

Definition ret {St A} (a : A) : M St A := λ s l, Out (Ok a) s l.

Definition bind {St A B} (m : M St A) (k : A → M St B) : M St B :=
  λ s l,
    match m s l with
    | Out (Ok a) s' l' => k a s' l'
    | Out (Raise e) s' l' => Out (Raise e) s' l'
    end.

Definition raise {St A} (e : exn) : M St A := λ s l, Out (Raise e) s l.

Definition lift {St A} (r : res A) : M St A := λ s l, Out r s l.

Definition gets {St A} (f : St → A) : M St A := λ s l, Out (Ok (f s)) s l.

Definition modify {St} (f : St → St) : M St unit := λ s l, Out (Ok ()) (f s) l.

Definition mlog {St} (v : level) (m : string) : M St unit :=
  λ s l, Out (Ok ()) s (l ++ [LogEntry v m]).

(** [try: m  except <classes>: handler]. *)
Definition try_except {St A} (m : M St A) (catches : exn → bool)
    (handler : exn → M St A) : M St A :=
  λ s l,
    match m s l with
    | Out (Raise e) s' l' =>
        if catches e then handler e s' l' else Out (Raise e) s' l'
    | o => o
    end.

(** Run code written against one attribute of an object on the object. *)
Definition zoom {St T A} (rd : St → T) (wr : T → St → St) (m : M T A) : M St A :=
  λ s l, let o := m (rd s) l in Out (result o) (wr (state o) s) (logged o).

#[global] Instance M_ret {St} : MRet (M St) := λ A, ret.
#[global] Instance M_bind {St} : MBind (M St) := λ A B k m, bind m k.

(** [for x in xs] over a list that the body does not change, with [break]. *)
Inductive ctl := Continue | Break.

Fixpoint for_in {St A} (xs : list A) (body : A → M St ctl) : M St unit :=
  match xs with
  | [] => ret ()
  | x :: xs' =>
      c ← body x;
      match c with
      | Break => ret ()
      | Continue => for_in xs' body
      end
  end.

(** [for x in lst] where the body mutates [lst]: the list iterator keeps an
    index and re-reads the list at every step, ending when the index is past
    the current end.  [fuel] bounds the number of steps; the loops modelled
    here never lengthen their list, so its initial length suffices
    (see [for_live_fuel]). *)
Fixpoint for_live {St A} (fuel idx : nat) (cur : St → list A)
    (body : A → M St unit) : M St unit :=
  match fuel with
  | 0 => ret ()
  | S n =>
      l ← gets cur;
      match l !! idx with
      | None => ret ()
      | Some x => body x;; for_live n (S idx) cur body
      end
  end.

(** Python truthiness of an optional string attribute: [None] and [""] are
    false. *)
Definition truthy (o : option string) : bool :=
  match o with
  | Some s => negb (String.eqb s "")
  | None => false
  end.

End Py.
Import Py.

(** ** The context value model

    Each record keeps the attributes that the correlation code reads.
    An attribute that may hold [None] is an [option]. *)

(** [datetime] values as a count of microseconds; [None] is a missing
    timestamp.  [a > b] raises [TypeError] when either side is [None]. *)
Definition pytime := option Z.

Definition py_gt (a b : pytime) : res bool :=
  match a, b with
  | Some x, Some y => Ok (bool_decide (y < x)%Z)
  | _, _ => Raise TypeError
  end.

(** [ipaddress.IPv4Address] / [IPv6Address] objects, equal when the version
    and the packed value are. *)
Inductive ipaddr := IPv4 (n : N) | IPv6 (n : N).

Record Certificate := {
  cert_subject : option string;
  cert_subject_alternative_names : option (list string);
  cert_timestamp : pytime
}.

Record ContextFile := {
  file_name : option string;
  file_md5 : option string;
  file_sha1 : option string;
  file_sha256 : option string;
  file_timestamp : pytime
}.

Record HTTP := {
  http_host : option string;
  http_full_url : option string;
  http_request_body : option string;
  http_file : option ContextFile;
  http_certificate : option Certificate;
  http_timestamp : pytime
}.

(** [query_response] is an address object or a string. *)
Inductive dns_response := RespAddr (a : ipaddr) | RespStr (s : string).

Record DNSQuery := {
  dns_query_name : option string;
  dns_query_response : option dns_response;
  dns_timestamp : pytime
}.

Record ContextFlow := {
  flow_source_ip : option ipaddr;
  flow_destination_ip : option ipaddr;
  flow_http : option HTTP;
  flow_dns_query : option DNSQuery;
  flow_timestamp : pytime
}.

Record ContextLog := {
  log_flow : option ContextFlow;
  log_timestamp : pytime
}.

Record ContextProcess := {
  process_flow : option ContextFlow;
  process_md5 : option string;
  process_sha1 : option string;
  process_sha256 : option string;
  process_timestamp : pytime
}.

Record Location := {
  location_country : option string;
  location_timestamp : pytime
}.

Record ContextAsset := {
  asset_local_ip : option ipaddr;
  asset_global_ip : option ipaddr;
  asset_timestamp : pytime
}.

Record Person := { person_timestamp : pytime }.

Record ContextRegistry := {
  registry_key : option string;
  registry_value : option string;
  registry_timestamp : pytime
}.

(** One engine's verdict, [ThreatIntel]. *)
Record ThreatIntel := {
  ti_is_known : option bool;
  ti_is_hit : bool;
  ti_hit_type : string
}.

(** [ContextThreatIntel] after construction. *)
Record ContextThreatIntel := {
  cti_timestamp : pytime;
  cti_threat_intel_alerts : option (list ThreatIntel);
  cti_score_hit : Z;
  cti_score_total : Z;
  cti_score_hit_sus : Z;
  cti_score_hit_mal : Z;
  cti_score_known : Z;
  cti_score_unknown : Z;
  cti_alert_relevance : option Z
}.

(** Everything [CaseFile.add_context] may be handed.  A plain [dict] stands
    for an IRIS case ([context["IRIS Case"]["Created"]]); [CtxOther] is an
    object of any other class, with its [timestamp] attribute if it has
    one. *)
Inductive context :=
  | CtxLog (c : ContextLog)
  | CtxProcess (c : ContextProcess)
  | CtxFlow (c : ContextFlow)
  | CtxThreatIntel (c : ContextThreatIntel)
  | CtxLocation (c : Location)
  | CtxAsset (c : ContextAsset)
  | CtxPerson (c : Person)
  | CtxRegistry (c : ContextRegistry)
  | CtxFile (c : ContextFile)
  | CtxHTTP (c : HTTP)
  | CtxDNSQuery (c : DNSQuery)
  | CtxCertificate (c : Certificate)
  | CtxDict (d : gmap string (gmap string string))
  | CtxOther (timestamp : option pytime).

(** [context.timestamp]; [AttributeError] when the object has none. *)
Definition context_timestamp (c : context) : res pytime :=
  match c with
  | CtxLog c => Ok (log_timestamp c)
  | CtxProcess c => Ok (process_timestamp c)
  | CtxFlow c => Ok (flow_timestamp c)
  | CtxThreatIntel c => Ok (cti_timestamp c)
  | CtxLocation c => Ok (location_timestamp c)
  | CtxAsset c => Ok (asset_timestamp c)
  | CtxPerson c => Ok (person_timestamp c)
  | CtxRegistry c => Ok (registry_timestamp c)
  | CtxFile c => Ok (file_timestamp c)
  | CtxHTTP c => Ok (http_timestamp c)
  | CtxDNSQuery c => Ok (dns_timestamp c)
  | CtxCertificate c => Ok (cert_timestamp c)
  | CtxDict _ => Raise AttributeError
  | CtxOther (Some t) => Ok t
  | CtxOther None => Raise AttributeError
  end.

(** ** Timeline store ([generic_helper.add_to_timeline]) *)

Module Timeline.

(** A value that can be passed as [context] or sit in a [context_list]: a
    context object, or a Python [list] of them. *)
Inductive pyobj :=
  | Obj (c : context)
  | PyList (l : list context).

Definition timestamp_attr (o : pyobj) : res pytime :=
  match o with
  | Obj c => context_timestamp c
  | PyList _ => Raise AttributeError
  end.

(** [str(type(o))]. *)
Definition type_str (o : pyobj) : string :=
  match o with
  | Obj (CtxLog _) => "<class 'lib.class_helper.ContextLog'>"
  | Obj (CtxProcess _) => "<class 'lib.class_helper.ContextProcess'>"
  | Obj (CtxFlow _) => "<class 'lib.class_helper.ContextFlow'>"
  | Obj (CtxThreatIntel _) => "<class 'lib.class_helper.ContextThreatIntel'>"
  | Obj (CtxLocation _) => "<class 'lib.class_helper.Location'>"
  | Obj (CtxAsset _) => "<class 'lib.class_helper.ContextAsset'>"
  | Obj (CtxPerson _) => "<class 'lib.class_helper.Person'>"
  | Obj (CtxRegistry _) => "<class 'lib.class_helper.ContextRegistry'>"
  | Obj (CtxFile _) => "<class 'lib.class_helper.ContextFile'>"
  | Obj (CtxHTTP _) => "<class 'lib.class_helper.HTTP'>"
  | Obj (CtxDNSQuery _) => "<class 'lib.class_helper.DNSQuery'>"
  | Obj (CtxCertificate _) => "<class 'lib.class_helper.Certificate'>"
  | Obj (CtxDict _) => "<class 'dict'>"
  | Obj (CtxOther _) => "<class 'object'>"
  | PyList _ => "<class 'list'>"
  end.

Definition THRESHOLD_MAX_CONTEXTS : nat := 1000.

(** [type(context) == list and len(context) >= THRESHOLD_MAX_CONTEXTS]:
    the test reads the item being added, not [context_list]. *)
Definition overflow_guard (context : pyobj) : bool :=
  match context with
  | PyList l => bool_decide (THRESHOLD_MAX_CONTEXTS ≤ length l)
  | Obj _ => false
  end.

(** [lst.insert(i, x)]. *)
Definition list_insert_at {A} (i : nat) (x : A) (l : list A) : list A :=
  take i l ++ x :: drop i l.

(** [lst[i]]. *)
Definition index {St A} (l : list A) (i : nat) : M St A :=
  match l !! i with
  | Some x => ret x
  | None => raise IndexError
  end.

(** The body of [for i in range(len(context_list))]. *)
Definition timeline_step (context : pyobj) (timestamp : pytime) (i : nat)
    : M (list pyobj) ctl :=
  context_list ← gets id;
  x ← index context_list i;
  ts ← lift (timestamp_attr x);
  later ← lift (py_gt ts timestamp);
  if later : bool then
    modify (list_insert_at i context);; mret Break
  else if bool_decide (i = length context_list - 1) then
    modify (λ l, l ++ [context]);; mret Break
  else mret Continue.

(** [add_to_timeline(context_list, context, timestamp)]; the state is
    [context_list]. *)
Definition add_to_timeline (context : pyobj) (timestamp : pytime)
    : M (list pyobj) unit :=
  if overflow_guard context then
    context_list ← gets id;
    first ← index context_list 0;
    mlog DEBUG
      ("add_to_timeline() - [OVERFLOW PROTECTION] Maximum number of contexts reached. No more contexts will be added to the context list of context type '"
       +:+ type_str first +:+ "'.")
  else
    n ← gets length;
    if bool_decide (n = 0) then modify (λ l, l ++ [context])
    else for_in (seq 0 n) (timeline_step context timestamp).

(** The contract in the words of the specification: insert before the first
    element whose timestamp is strictly greater; append when there is
    none. *)
Definition ts_of (o : pyobj) : option Z :=
  match timestamp_attr o with
  | Ok (Some t) => Some t
  | _ => None
  end.

Fixpoint insert_before_first_later (item : pyobj) (t : Z) (l : list pyobj)
    : list pyobj :=
  match l with
  | [] => [item]
  | x :: l' =>
      match ts_of x with
      | Some tx =>
          if bool_decide (t < tx)%Z then item :: x :: l'
          else x :: insert_before_first_later item t l'
      | None => x :: insert_before_first_later item t l'
      end
  end.

(** Ascending (non-decreasing) order of timestamps. *)
Definition ts_le (x y : pyobj) : Prop :=
  match ts_of x, ts_of y with
  | Some a, Some b => (a ≤ b)%Z
  | _, _ => False
  end.

Definition comparable (l : list pyobj) : Prop :=
  Forall (λ x, is_Some (ts_of x)) l.

Definition ascending (l : list pyobj) : Prop := StronglySorted ts_le l.

(** A [Person] context with the given timestamp, for worked examples. *)
Definition person_at (t : Z) : pyobj :=
  Obj (CtxPerson {| person_timestamp := Some t |}).

End Timeline.

(** Adding a run of context objects, each under its own timestamp, the way
    [CaseFile.add_context] calls the store. *)
Fixpoint add_all (cs : list context) : M (list Timeline.pyobj) unit :=
  match cs with
  | [] => mret ()
  | c :: cs' =>
      ts ← lift (context_timestamp c);
      Timeline.add_to_timeline (Timeline.Obj c) ts;;
      add_all cs'
  end.

(** ** Strings and lists the way Python treats them *)

Module PyStr.

(** [s[n:]].  Strings here are byte strings: the slice drops bytes where
    Python drops code points, and the two agree on ASCII text. *)
Fixpoint slice_from (n : nat) (s : string) : string :=
  match n, s with
  | 0, _ => s
  | S n', String _ s' => slice_from n' s'
  | S _, EmptyString => EmptyString
  end.

(** [s.startswith(p)]. *)
Definition startswith (p s : string) : bool := String.prefix p s.

(** [s.lower()] restricted to the ASCII letters; Python also lowers the
    letters outside ASCII, which stay as they are here. *)
Definition lower_ascii (c : Ascii.ascii) : Ascii.ascii :=
  let n := Ascii.nat_of_ascii c in
  if bool_decide (65 ≤ n ≤ 90) then Ascii.ascii_of_nat (n + 32) else c.

Fixpoint lower (s : string) : string :=
  match s with
  | EmptyString => EmptyString
  | String c s' => String (lower_ascii c) (lower s')
  end.

(** [lst.remove(x)] when [x] occurs: drops its first occurrence. *)
Fixpoint remove_first `{EqDecision A} (x : A) (l : list A) : list A :=
  match l with
  | [] => []
  | y :: l' => if decide (x = y) then l' else y :: remove_first x l'
  end.

(** [list(dict.fromkeys(l))]: the first occurrence of every value, in
    order. *)
Definition fromkeys `{EqDecision A} (l : list A) : list A :=
  foldl (λ acc x, if decide (x ∈ acc) then acc else acc ++ [x]) [] l.

End PyStr.

(** ** Indicators and the case aggregate *)

(** A value in an indicator list: a string, an address object, or [None]
    when the attribute it was read from was unset.  A string never equals an
    address object. *)
Inductive indicator :=
  | INone
  | IStr (s : string)
  | IAddr (a : ipaddr).

#[global] Instance ipaddr_eq_dec : EqDecision ipaddr.
Proof. solve_decision. Defined.
#[global] Instance indicator_eq_dec : EqDecision indicator.
Proof. solve_decision. Defined.

Definition of_str (o : option string) : indicator :=
  match o with Some s => IStr s | None => INone end.

Definition of_ip (o : option ipaddr) : indicator :=
  match o with Some a => IAddr a | None => INone end.

Definition of_response (r : dns_response) : indicator :=
  match r with RespAddr a => IAddr a | RespStr s => IStr s end.

(** The [indicators] dict of an [Alert] or a [CaseFile] as its constructor
    leaves it. *)
Definition empty_indicators : gmap string (list indicator) :=
  list_to_map
    [("ip", []); ("domain", []); ("url", []); ("hash", []); ("email", []);
     ("countries", []); ("registry", []); ("other", [])].

(** [generic_helper.remove_duplicates_from_dict] on a dict all of whose
    values are lists, which is what both callers pass. *)
Definition remove_duplicates_from_dict (d : gmap string (list indicator))
    : gmap string (list indicator) :=
  PyStr.fromkeys <$> d.

(** The per-type collections of a case, by attribute. *)
Inductive context_attr :=
  | context_logs | context_processes | context_flows | context_threat_intel
  | context_locations | context_devices | context_persons | context_files
  | context_registries.

#[global] Instance context_attr_eq_dec : EqDecision context_attr.
Proof. solve_decision. Defined.

(** Addresses of [AuditLog] objects. *)
Definition loc := nat.

Record Alert := {
  alert_name : option string;
  alert_rules : option (list string);
  alert_indicators : gmap string (list indicator)
}.

Record CaseFile := {
  alerts : list Alert;
  playbooks : list string;
  audit_trail : list loc;
  handled_by_playbooks : list string;
  playbooks_to_retry : list string;
  iris_case : option (gmap string (gmap string string));
  contexts : context_attr → list Timeline.pyobj;
  uuid : Z;
  indicators : gmap string (list indicator)
}.

Definition set_playbooks (v : list string) (c : CaseFile) : CaseFile :=
  {| alerts := alerts c; playbooks := v; audit_trail := audit_trail c;
     handled_by_playbooks := handled_by_playbooks c;
     playbooks_to_retry := playbooks_to_retry c; iris_case := iris_case c;
     contexts := contexts c; uuid := uuid c; indicators := indicators c |}.

Definition set_audit_trail (v : list loc) (c : CaseFile) : CaseFile :=
  {| alerts := alerts c; playbooks := playbooks c; audit_trail := v;
     handled_by_playbooks := handled_by_playbooks c;
     playbooks_to_retry := playbooks_to_retry c; iris_case := iris_case c;
     contexts := contexts c; uuid := uuid c; indicators := indicators c |}.

Definition set_handled_by_playbooks (v : list string) (c : CaseFile)
    : CaseFile :=
  {| alerts := alerts c; playbooks := playbooks c;
     audit_trail := audit_trail c; handled_by_playbooks := v;
     playbooks_to_retry := playbooks_to_retry c; iris_case := iris_case c;
     contexts := contexts c; uuid := uuid c; indicators := indicators c |}.

Definition set_playbooks_to_retry (v : list string) (c : CaseFile)
    : CaseFile :=
  {| alerts := alerts c; playbooks := playbooks c;
     audit_trail := audit_trail c;
     handled_by_playbooks := handled_by_playbooks c;
     playbooks_to_retry := v; iris_case := iris_case c;
     contexts := contexts c; uuid := uuid c; indicators := indicators c |}.

Definition set_iris_case (v : option (gmap string (gmap string string)))
    (c : CaseFile) : CaseFile :=
  {| alerts := alerts c; playbooks := playbooks c;
     audit_trail := audit_trail c;
     handled_by_playbooks := handled_by_playbooks c;
     playbooks_to_retry := playbooks_to_retry c; iris_case := v;
     contexts := contexts c; uuid := uuid c; indicators := indicators c |}.

Definition set_contexts (k : context_attr) (v : list Timeline.pyobj)
    (c : CaseFile) : CaseFile :=
  {| alerts := alerts c; playbooks := playbooks c;
     audit_trail := audit_trail c;
     handled_by_playbooks := handled_by_playbooks c;
     playbooks_to_retry := playbooks_to_retry c; iris_case := iris_case c;
     contexts := <[k := v]> (contexts c); uuid := uuid c;
     indicators := indicators c |}.

Definition set_indicators (v : gmap string (list indicator)) (c : CaseFile)
    : CaseFile :=
  {| alerts := alerts c; playbooks := playbooks c;
     audit_trail := audit_trail c;
     handled_by_playbooks := handled_by_playbooks c;
     playbooks_to_retry := playbooks_to_retry c; iris_case := iris_case c;
     contexts := contexts c; uuid := uuid c; indicators := v |}.

(** ** [CaseFile.add_context] and the indicator extractor *)

Module Case.

Section WithIpParser.

(** [ipaddress.ip_address] of the Python library on a string; [None] stands
    for its [ValueError]. *)
Context (ip_address : string → option ipaddr).

(** [generic_helper.cast_to_ipaddress(ip)] with the default [strict=True],
    on a value that is true in a condition. *)
Definition cast_to_ipaddress (ip : dns_response) : res ipaddr :=
  match ip with
  | RespAddr a => Ok a
  | RespStr s =>
      match ip_address s with
      | Some a => Ok a
      | None => Raise ValueError
      end
  end.

(** Truthiness of a [query_response]. *)
Definition response_truthy (r : option dns_response) : bool :=
  match r with
  | Some (RespAddr _) => true
  | Some (RespStr s) => negb (String.eqb s "")
  | None => false
  end.

(** [self.indicators[k].append(v)]. *)
Definition append_indicator (k : string) (v : indicator) : M CaseFile unit :=
  d ← gets indicators;
  match d !! k with
  | Some l => modify (set_indicators (<[k := l ++ [v]]> d))
  | None => raise KeyError
  end.

Definition when {St} (b : bool) (m : M St unit) : M St unit :=
  if b then m else mret ().

(** [if x.flow: ip.append(x.flow.source_ip); ip.append(x.flow.destination_ip)],
    shared by the log and process branches. *)
Definition extract_flow_endpoints (flow : option ContextFlow)
    : M CaseFile unit :=
  match flow with
  | Some f =>
      append_indicator "ip" (of_ip (flow_source_ip f));;
      append_indicator "ip" (of_ip (flow_destination_ip f))
  | None => mret ()
  end.

(** The three [if x.md5: ... if x.sha1: ... if x.sha256: ...] appends. *)
Definition extract_hashes (md5 sha1 sha256 : option string)
    : M CaseFile unit :=
  when (truthy md5) (append_indicator "hash" (of_str md5));;
  when (truthy sha1) (append_indicator "hash" (of_str sha1));;
  when (truthy sha256) (append_indicator "hash" (of_str sha256)).

Definition extract_http (h : HTTP) : M CaseFile unit :=
  append_indicator "domain" (of_str (http_host h));;
  append_indicator "url" (of_str (http_full_url h));;
  when (truthy (http_request_body h))
    (append_indicator "other" (of_str (http_request_body h)));;
  match http_file h with
  | Some f =>
      append_indicator "other" (of_str (file_name f));;
      extract_hashes (file_md5 f) (file_sha1 f) (file_sha256 f)
  | None => mret ()
  end.

Definition extract_dns (q : DNSQuery) : M CaseFile unit :=
  append_indicator "domain" (of_str (dns_query_name q));;
  match dns_query_response q with
  | Some r =>
      if response_truthy (Some r) then
        _ ← lift (cast_to_ipaddress r);
        append_indicator "ip" (of_response r)
      else mret ()
  | None => mret ()
  end.

Definition extract_certificate (c : Certificate) : M CaseFile unit :=
  append_indicator "domain" (of_str (cert_subject c));;
  match cert_subject_alternative_names c with
  | Some sans =>
      for_in sans (λ san, append_indicator "domain" (IStr san);; mret Continue)
  | None => mret ()
  end.

(** [add_to_timeline(self.<attr>, context, timestamp)]. *)
Definition file_under (attr : context_attr) (ctx : context)
    (timestamp : pytime) : M CaseFile unit :=
  zoom (λ c, contexts c attr) (set_contexts attr)
    (Timeline.add_to_timeline (Timeline.Obj ctx) timestamp).

(** The [isinstance] chain of [add_context]. *)
Definition extract (ctx : context) (timestamp : pytime) : M CaseFile unit :=
  match ctx with
  | CtxLog c =>
      file_under context_logs ctx timestamp;;
      extract_flow_endpoints (log_flow c)
  | CtxProcess c =>
      file_under context_processes ctx timestamp;;
      extract_flow_endpoints (process_flow c);;
      extract_hashes (process_md5 c) (process_sha1 c) (process_sha256 c)
  | CtxFlow c =>
      file_under context_flows ctx timestamp;;
      append_indicator "ip" (of_ip (flow_source_ip c));;
      append_indicator "ip" (of_ip (flow_destination_ip c));;
      match flow_http c with Some h => extract_http h | None => mret () end;;
      match flow_dns_query c with Some q => extract_dns q | None => mret () end;;
      match flow_http c with
      | Some h =>
          match http_certificate h with
          | Some crt => extract_certificate crt
          | None => mret ()
          end
      | None => mret ()
      end
  | CtxThreatIntel _ => file_under context_threat_intel ctx timestamp
  | CtxLocation c =>
      file_under context_locations ctx timestamp;;
      when (truthy (location_country c))
        (append_indicator "countries" (of_str (location_country c)))
  | CtxAsset c =>
      file_under context_devices ctx timestamp;;
      when (bool_decide (is_Some (asset_local_ip c)))
        (append_indicator "ip" (of_ip (asset_local_ip c)));;
      when (bool_decide (is_Some (asset_global_ip c)))
        (append_indicator "ip" (of_ip (asset_global_ip c)))
  | CtxPerson _ => file_under context_persons ctx timestamp
  | CtxRegistry c =>
      file_under context_registries ctx timestamp;;
      match registry_key c, registry_value c with
      | Some k, Some v =>
          append_indicator "registry"
            (IStr (PyStr.lower k +:+ "->" +:+ PyStr.lower v))
      | _, _ => raise AttributeError
      end
  | CtxFile c =>
      file_under context_files ctx timestamp;;
      append_indicator "other" (of_str (file_name c));;
      extract_hashes (file_md5 c) (file_sha1 c) (file_sha256 c)
  | CtxDict d =>
      match d !! "IRIS Case" with
      | Some inner =>
          if bool_decide (inner = ∅) then raise TypeError
          else modify (set_iris_case (Some d))
      | None => raise KeyError
      end
  | CtxHTTP _ | CtxDNSQuery _ | CtxCertificate _ | CtxOther _ =>
      raise TypeError
  end.

(** The [timestamp] that [add_context] reads first: the attribute of an
    object ([ValueError] when it has none), [context["IRIS Case"]["Created"]]
    of a dict.  The dict's value is not used afterwards. *)
Definition read_timestamp (ctx : context) : M CaseFile pytime :=
  match ctx with
  | CtxDict d =>
      match d !! "IRIS Case" with
      | Some inner =>
          match inner !! "Created" with
          | Some _ => mret None
          | None => raise KeyError
          end
      | None => raise KeyError
      end
  | _ =>
      match context_timestamp ctx with
      | Ok t => mret t
      | Raise _ => raise ValueError
      end
  end.

Definition domain_list (c : CaseFile) : list indicator :=
  default [] (indicators c !! "domain").

(** The body of [for domain in self.indicators["domain"]]: a value that
    starts with [mark] is removed and its tail after two characters is
    appended.  [None] and address objects have no [startswith]. *)
Definition strip_wildcard (mark : string) (domain : indicator)
    : M CaseFile unit :=
  match domain with
  | IStr s =>
      if PyStr.startswith mark s then
        mlog DEBUG ("Removing '*.' from domain indicator: " +:+ s);;
        modify (λ c,
          set_indicators
            (<["domain" := PyStr.remove_first domain (domain_list c)]>
               (indicators c)) c);;
        append_indicator "domain" (IStr (PyStr.slice_from 2 s))
      else mret ()
  | _ => raise AttributeError
  end.

(** The loop itself; it iterates over the list it edits. *)
Definition strip_wildcards (mark : string) : M CaseFile unit :=
  d ← gets indicators;
  match d !! "domain" with
  | Some l => for_live (length l) 0 domain_list (strip_wildcard mark)
  | None => raise KeyError
  end.

(** [CaseFile.add_context(context)]; the state is [self]. *)
Definition add_context (context : option context) : M CaseFile unit :=
  match context with
  | None => mlog WARNING "CaseFile: add_context() - Context is None, skipping."
  | Some ctx =>
      timestamp ← read_timestamp ctx;
      extract ctx timestamp;;
      strip_wildcards "*";;
      modify (λ c, set_indicators (remove_duplicates_from_dict (indicators c)) c)
  end.

End WithIpParser.

(** [CaseFile(alerts, case_id)] as far as the fields kept here go; [first]
    is the address of the initial audit row. *)
Definition new_case (alerts : list Alert) (case_id : Z) (first : loc)
    : CaseFile :=
  {| alerts := alerts; playbooks := []; audit_trail := [first];
     handled_by_playbooks := []; playbooks_to_retry := [];
     iris_case := None; contexts := λ _, []; uuid := case_id;
     indicators := empty_indicators |}.

(** A flow over HTTPS whose certificate names two wildcard domains. *)
Definition wildcard_flow : ContextFlow :=
  {| flow_source_ip := Some (IPv4 167772165%N);
     flow_destination_ip := Some (IPv4 134744072%N);
     flow_http := Some
       {| http_host := Some "www.example.com";
          http_full_url := Some "https://www.example.com/";
          http_request_body := None;
          http_file := None;
          http_certificate := Some
            {| cert_subject := Some "*.example.com";
               cert_subject_alternative_names := Some ["*.example.net"];
               cert_timestamp := Some 0%Z |};
          http_timestamp := Some 0%Z |};
     flow_dns_query := None;
     flow_timestamp := Some 10%Z |}.

(** A flow whose DNS answer is a host name (a CNAME), not an address. *)
Definition cname_flow : ContextFlow :=
  {| flow_source_ip := Some (IPv4 167772165%N);
     flow_destination_ip := Some (IPv4 134744072%N);
     flow_http := None;
     flow_dns_query := Some
       {| dns_query_name := Some "www.example.com";
          dns_query_response := Some (RespStr "cdn.example.net");
          dns_timestamp := Some 0%Z |};
     flow_timestamp := Some 10%Z |}.

End Case.

(** ** The audit trail ([AuditLog], [CaseFile.update_audit]) *)

Module Audit.

(** What is stored under a key of [result_data]: the [data] argument of a
    transition (a dict or [None]) or the alert name. *)
Inductive data :=
  | DNone
  | DStr (s : string)
  | DDict (d : list (string * string)).

(** The [result_data] attribute.  It is declared a dict; [update_audit]
    also expects [None], and [CaseFile.__init__] stores a string in its
    initial row. *)
Inductive result_data_t :=
  | RNone
  | RStr (s : string)
  | RDict (d : gmap string data).

Record AuditLog := {
  playbook : string;
  stage : Z;
  title : string;
  description : string;
  start_time : pytime;
  related_iris_case_number : string;
  result_was_successful : bool;
  result_had_warnings : bool;
  result_had_errors : bool;
  result_request_retry : bool;
  result_message : string;
  result_data : result_data_t;
  result_in_iris_case : bool;
  result_time : Z;
  result_exception : option string;
  result_warning_messages : list string;
  stage_done : bool;
  playbook_done : bool
}.

Definition set_related_iris_case_number (v : string) (a : AuditLog) : AuditLog :=
  {| playbook := playbook a; stage := stage a; title := title a; description
     := description a; start_time := start_time a; related_iris_case_number
     := v; result_was_successful := result_was_successful a;
     result_had_warnings := result_had_warnings a; result_had_errors :=
     result_had_errors a; result_request_retry := result_request_retry a;
     result_message := result_message a; result_data := result_data a;
     result_in_iris_case := result_in_iris_case a; result_time :=
     result_time a; result_exception := result_exception a;
     result_warning_messages := result_warning_messages a; stage_done :=
     stage_done a; playbook_done := playbook_done a |}.

Definition set_result_was_successful (v : bool) (a : AuditLog) : AuditLog :=
  {| playbook := playbook a; stage := stage a; title := title a; description
     := description a; start_time := start_time a; related_iris_case_number
     := related_iris_case_number a; result_was_successful := v;
     result_had_warnings := result_had_warnings a; result_had_errors :=
     result_had_errors a; result_request_retry := result_request_retry a;
     result_message := result_message a; result_data := result_data a;
     result_in_iris_case := result_in_iris_case a; result_time :=
     result_time a; result_exception := result_exception a;
     result_warning_messages := result_warning_messages a; stage_done :=
     stage_done a; playbook_done := playbook_done a |}.

Definition set_result_had_warnings (v : bool) (a : AuditLog) : AuditLog :=
  {| playbook := playbook a; stage := stage a; title := title a; description
     := description a; start_time := start_time a; related_iris_case_number
     := related_iris_case_number a; result_was_successful :=
     result_was_successful a; result_had_warnings := v; result_had_errors :=
     result_had_errors a; result_request_retry := result_request_retry a;
     result_message := result_message a; result_data := result_data a;
     result_in_iris_case := result_in_iris_case a; result_time :=
     result_time a; result_exception := result_exception a;
     result_warning_messages := result_warning_messages a; stage_done :=
     stage_done a; playbook_done := playbook_done a |}.

Definition set_result_had_errors (v : bool) (a : AuditLog) : AuditLog :=
  {| playbook := playbook a; stage := stage a; title := title a; description
     := description a; start_time := start_time a; related_iris_case_number
     := related_iris_case_number a; result_was_successful :=
     result_was_successful a; result_had_warnings := result_had_warnings a;
     result_had_errors := v; result_request_retry := result_request_retry a;
     result_message := result_message a; result_data := result_data a;
     result_in_iris_case := result_in_iris_case a; result_time :=
     result_time a; result_exception := result_exception a;
     result_warning_messages := result_warning_messages a; stage_done :=
     stage_done a; playbook_done := playbook_done a |}.

Definition set_result_request_retry (v : bool) (a : AuditLog) : AuditLog :=
  {| playbook := playbook a; stage := stage a; title := title a; description
     := description a; start_time := start_time a; related_iris_case_number
     := related_iris_case_number a; result_was_successful :=
     result_was_successful a; result_had_warnings := result_had_warnings a;
     result_had_errors := result_had_errors a; result_request_retry := v;
     result_message := result_message a; result_data := result_data a;
     result_in_iris_case := result_in_iris_case a; result_time :=
     result_time a; result_exception := result_exception a;
     result_warning_messages := result_warning_messages a; stage_done :=
     stage_done a; playbook_done := playbook_done a |}.

Definition set_result_message (v : string) (a : AuditLog) : AuditLog :=
  {| playbook := playbook a; stage := stage a; title := title a; description
     := description a; start_time := start_time a; related_iris_case_number
     := related_iris_case_number a; result_was_successful :=
     result_was_successful a; result_had_warnings := result_had_warnings a;
     result_had_errors := result_had_errors a; result_request_retry :=
     result_request_retry a; result_message := v; result_data := result_data
     a; result_in_iris_case := result_in_iris_case a; result_time :=
     result_time a; result_exception := result_exception a;
     result_warning_messages := result_warning_messages a; stage_done :=
     stage_done a; playbook_done := playbook_done a |}.

Definition set_result_data (v : result_data_t) (a : AuditLog) : AuditLog :=
  {| playbook := playbook a; stage := stage a; title := title a; description
     := description a; start_time := start_time a; related_iris_case_number
     := related_iris_case_number a; result_was_successful :=
     result_was_successful a; result_had_warnings := result_had_warnings a;
     result_had_errors := result_had_errors a; result_request_retry :=
     result_request_retry a; result_message := result_message a; result_data
     := v; result_in_iris_case := result_in_iris_case a; result_time :=
     result_time a; result_exception := result_exception a;
     result_warning_messages := result_warning_messages a; stage_done :=
     stage_done a; playbook_done := playbook_done a |}.

Definition set_result_in_iris_case (v : bool) (a : AuditLog) : AuditLog :=
  {| playbook := playbook a; stage := stage a; title := title a; description
     := description a; start_time := start_time a; related_iris_case_number
     := related_iris_case_number a; result_was_successful :=
     result_was_successful a; result_had_warnings := result_had_warnings a;
     result_had_errors := result_had_errors a; result_request_retry :=
     result_request_retry a; result_message := result_message a; result_data
     := result_data a; result_in_iris_case := v; result_time := result_time
     a; result_exception := result_exception a; result_warning_messages :=
     result_warning_messages a; stage_done := stage_done a; playbook_done :=
     playbook_done a |}.

Definition set_result_time (v : Z) (a : AuditLog) : AuditLog :=
  {| playbook := playbook a; stage := stage a; title := title a; description
     := description a; start_time := start_time a; related_iris_case_number
     := related_iris_case_number a; result_was_successful :=
     result_was_successful a; result_had_warnings := result_had_warnings a;
     result_had_errors := result_had_errors a; result_request_retry :=
     result_request_retry a; result_message := result_message a; result_data
     := result_data a; result_in_iris_case := result_in_iris_case a;
     result_time := v; result_exception := result_exception a;
     result_warning_messages := result_warning_messages a; stage_done :=
     stage_done a; playbook_done := playbook_done a |}.

Definition set_result_exception (v : option string) (a : AuditLog) : AuditLog :=
  {| playbook := playbook a; stage := stage a; title := title a; description
     := description a; start_time := start_time a; related_iris_case_number
     := related_iris_case_number a; result_was_successful :=
     result_was_successful a; result_had_warnings := result_had_warnings a;
     result_had_errors := result_had_errors a; result_request_retry :=
     result_request_retry a; result_message := result_message a; result_data
     := result_data a; result_in_iris_case := result_in_iris_case a;
     result_time := result_time a; result_exception := v;
     result_warning_messages := result_warning_messages a; stage_done :=
     stage_done a; playbook_done := playbook_done a |}.

Definition set_result_warning_messages (v : list string) (a : AuditLog) : AuditLog :=
  {| playbook := playbook a; stage := stage a; title := title a; description
     := description a; start_time := start_time a; related_iris_case_number
     := related_iris_case_number a; result_was_successful :=
     result_was_successful a; result_had_warnings := result_had_warnings a;
     result_had_errors := result_had_errors a; result_request_retry :=
     result_request_retry a; result_message := result_message a; result_data
     := result_data a; result_in_iris_case := result_in_iris_case a;
     result_time := result_time a; result_exception := result_exception a;
     result_warning_messages := v; stage_done := stage_done a; playbook_done
     := playbook_done a |}.

Definition set_stage_done (v : bool) (a : AuditLog) : AuditLog :=
  {| playbook := playbook a; stage := stage a; title := title a; description
     := description a; start_time := start_time a; related_iris_case_number
     := related_iris_case_number a; result_was_successful :=
     result_was_successful a; result_had_warnings := result_had_warnings a;
     result_had_errors := result_had_errors a; result_request_retry :=
     result_request_retry a; result_message := result_message a; result_data
     := result_data a; result_in_iris_case := result_in_iris_case a;
     result_time := result_time a; result_exception := result_exception a;
     result_warning_messages := result_warning_messages a; stage_done := v;
     playbook_done := playbook_done a |}.

(** [AuditLog(playbook, stage, title, ...)]; [now] is the clock reading of
    the call.  ([start_time] defaults to the clock reading at import time,
    which the caller passes like any other value.) *)
Definition new_AuditLog (playbook : string) (stage : Z) (title : string)
    (description : string) (start_time : pytime)
    (result_had_warnings result_had_errors result_request_retry : bool)
    (result_message : string) (result_data : result_data_t)
    (result_in_iris_case : bool) (result_time : option Z)
    (playbook_done : bool) (result_exception : option string)
    (result_was_successful : bool) (now : Z) : AuditLog :=
  {| playbook := playbook; stage := stage; title := title;
     description := description; start_time := start_time;
     related_iris_case_number := "";
     result_was_successful := result_was_successful;
     result_had_warnings := result_had_warnings;
     result_had_errors := result_had_errors;
     result_request_retry := result_request_retry;
     result_message := result_message; result_data := result_data;
     result_in_iris_case := result_in_iris_case;
     result_time := default now result_time;
     result_exception := result_exception;
     result_warning_messages := []; stage_done := false;
     playbook_done := playbook_done |}.

(** [self.result_data[key] = value]: item assignment needs a dict. *)
Definition setitem_result_data (key : string) (value : data)
    : M AuditLog unit :=
  d ← gets result_data;
  match d with
  | RDict m => modify (set_result_data (RDict (<[key := value]> m)))
  | RNone | RStr _ => raise TypeError
  end.

(** [AuditLog.set_successful(message, data, iris_case_number)]; the state is
    [self], which is also what the method returns. *)
Definition set_successful (message : string) (dat : data)
    (iris_case_number : option string) (now : Z) : M AuditLog unit :=
  modify (set_result_was_successful true);;
  modify (set_result_request_retry false);;
  modify (set_result_message message);;
  setitem_result_data "success" dat;;
  modify (set_result_time now);;
  match iris_case_number with
  | Some n =>
      modify (set_result_in_iris_case true);;
      modify (set_related_iris_case_number n)
  | None => mret ()
  end;;
  modify (set_stage_done true).

(** [AuditLog.set_warning(in_iris_case, warning_message, data)]. *)
Definition set_warning (in_iris_case : bool) (warning_message : string)
    (dat : data) (now : Z) : M AuditLog unit :=
  modify (set_result_had_warnings true);;
  modify (set_result_had_errors false);;
  modify (set_result_request_retry false);;
  modify (λ a, set_result_warning_messages
                 (result_warning_messages a ++ [warning_message]) a);;
  setitem_result_data "warnings" dat;;
  modify (set_result_in_iris_case in_iris_case);;
  modify (set_result_time now);;
  modify (set_stage_done true).

(** [AuditLog.set_error(in_iris_case, message, data, exception)];
    [exception] is given by its text, [None] when absent, and [str(None)]
    is ["None"]. *)
Definition set_error (in_iris_case : bool) (message : string) (dat : data)
    (exception : option string) (now : Z) : M AuditLog unit :=
  modify (set_result_had_errors true);;
  modify (set_result_request_retry true);;
  modify (set_result_message message);;
  setitem_result_data "error" dat;;
  modify (set_result_in_iris_case in_iris_case);;
  modify (set_result_time now);;
  modify (set_result_exception (Some (default "None" exception)));;
  modify (set_stage_done true).

(** A case together with the [AuditLog] objects that exist: the trail holds
    references, and a row can be changed through any of them. *)
Record world := World {
  case : CaseFile;
  rows : loc → AuditLog
}.

Definition on_case (f : CaseFile → CaseFile) (w : world) : world :=
  World (f (case w)) (rows w).

Definition on_row (h : loc) (f : AuditLog → AuditLog) (w : world) : world :=
  World (case w) (<[h := f (rows w h)]> (rows w)).

(** Run a method of the row at [h]. *)
Definition at_row {A} (h : loc) (m : M AuditLog A) : M world A :=
  zoom (λ w, rows w h) (λ a w, World (case w) (<[h := a]> (rows w))) m.

(** [self.audit_trail], read and replaced. *)
Definition trail_of (w : world) : list loc := audit_trail (case w).

Definition retrail (t : list loc) (w : world) : world :=
  World (set_audit_trail t (case w)) (rows w).

(** The [(playbook, stage)] pair of a row. *)
Definition key (a : AuditLog) : string * Z := (playbook a, stage a).

Section WithAuditFile.

(** [logging_helper.update_audit_log(case_id, audit, logger)], which is not
    part of these sources: it writes the row to [audit.log] and may fail. *)
Context (update_audit_log : Z → AuditLog → res unit).

(** The body of [for h in self.audit_trail]. *)
Definition drop_if_same_key (audit : loc) (h : loc) : M world unit :=
  w ← gets id;
  if bool_decide (key (rows w h) = key (rows w audit)) then
    modify (λ w, retrail (PyStr.remove_first h (trail_of w)) w)
  else mret ().

(** The first half of [update_audit]: the playbook is noted as done or to
    retry, and the alert name is written into the row's [result_data]. *)
Definition record_outcome (a : loc) : M world unit :=
  row ← gets (λ w, rows w a);
  Case.when (playbook_done row)
    (modify (on_case (λ c,
       set_handled_by_playbooks (handled_by_playbooks c ++ [playbook row]) c)));;
  Case.when (result_request_retry row)
    (modify (on_case (λ c,
       set_playbooks_to_retry (playbooks_to_retry c ++ [playbook row]) c)));;
  Case.when (match result_data row with RNone => true | _ => false end)
    (modify (on_row a (set_result_data (RDict ∅))));;
  als ← gets (λ w, alerts (case w));
  first ← Timeline.index als 0;
  at_row a (setitem_result_data "alert_name"
              (match alert_name first with Some n => DStr n | None => DNone end)).

(** The second half: rows with the pair of [a] are removed from the trail
    and [a] is appended. *)
Definition replace_row (a : loc) : M world unit :=
  trail ← gets trail_of;
  for_live (length trail) 0 trail_of (drop_if_same_key a);;
  modify (λ w, retrail (trail_of w ++ [a]) w).

(** [CaseFile.update_audit(audit, logger)]; [None] stands for an argument
    that is not an [AuditLog]. *)
Definition update_audit (audit : option loc) : M world unit :=
  match audit with
  | None => raise TypeError
  | Some a =>
      record_outcome a;;
      replace_row a;;
      w ← gets id;
      lift (update_audit_log (uuid (case w)) (rows w a))
  end.

(** The calls a playbook makes on a case and its rows. *)
Inductive call :=
  | CallUpdateAudit (audit : option loc)
  | CallSetSuccessful (h : loc) (message : string) (dat : data)
      (iris_case_number : option string) (now : Z)
  | CallSetWarning (h : loc) (in_iris_case : bool) (warning_message : string)
      (dat : data) (now : Z)
  | CallSetError (h : loc) (in_iris_case : bool) (message : string)
      (dat : data) (exception : option string) (now : Z).

Definition perform (c : call) : M world unit :=
  match c with
  | CallUpdateAudit audit => update_audit audit
  | CallSetSuccessful h m d n now => at_row h (set_successful m d n now)
  | CallSetWarning h i m d now => at_row h (set_warning i m d now)
  | CallSetError h i m d e now => at_row h (set_error i m d e now)
  end.

(** A run of calls; a call that raises leaves what it had written, and the
    caller goes on. *)
Fixpoint perform_all (cs : list call) (w : world) (lg : list log_entry)
    : world * list log_entry :=
  match cs with
  | [] => (w, lg)
  | c :: cs' =>
      let o := perform c w lg in perform_all cs' (state o) (logged o)
  end.

End WithAuditFile.

(** The pairs of the rows of the trail, in order. *)
Definition trail_keys (w : world) : list (string * Z) :=
  (λ h, key (rows w h)) <$> trail_of w.

(** At most one row per [(playbook, stage)] pair. *)
Definition one_row_per_key (w : world) : Prop := NoDup (trail_keys w).

(** The rows of the trail that carry the pair [k]. *)
Definition rows_with_key (k : string * Z) (w : world) : list loc :=
  filter (λ h, key (rows w h) = k) (trail_of w).

(** The first row of a new case, as [CaseFile.__init__] leaves it. *)
Definition initial_row (now : Z) : AuditLog :=
  set_result_data (RStr "CaseFile was initialized successfully.")
    (set_result_message "Initializing CaseFile was successful."
       (new_AuditLog "None/Initial" 0 "Initializing CaseFile"
          "Initializing the CaseFile onject" (Some now) false false false ""
          (RDict ∅) false None false None false now)).

(** [CaseFile(alerts, case_id)]: the new case and its initial row, stored at
    [first], among the rows [others] that exist besides. *)
Definition new_world (alerts : list Alert) (case_id : Z) (first : loc)
    (now : Z) (others : loc → AuditLog) : world :=
  World (Case.new_case alerts case_id first) (<[first := initial_row now]> others).

End Audit.

(** A freshly declared row of a playbook, for worked examples. *)
Definition example_row (pb : string) (st : Z) : Audit.AuditLog :=
  Audit.new_AuditLog pb st "Adding note" "" (Some 0%Z) false false false ""
    (Audit.RDict ∅) false None false None false 0.

(** ** [ContextThreatIntel.__init__] and its scores *)

Module Intel.

(** An argument annotated [int]: [None], an [int], or a value of another
    type. *)
Inductive pynum :=
  | NumNone
  | NumInt (z : Z)
  | NumOther.

(** [generic_helper.handle_percentage]. *)
Definition handle_percentage (percentage : pynum) : res (option Z) :=
  match percentage with
  | NumNone => Ok None
  | NumOther => Raise TypeError
  | NumInt p =>
      if bool_decide (100 < p)%Z then Raise ValueError
      else if bool_decide (p < 0)%Z then Raise ValueError
      else Ok (Some p)
  end.

(** The score attributes of the object under construction; [None] is an
    attribute that has not been assigned yet. *)
Record building := {
  b_score_hit : option Z;
  b_score_total : option Z;
  b_score_hit_sus : option Z;
  b_score_hit_mal : option Z;
  b_score_known : option Z;
  b_score_unknown : option Z
}.

Definition unassigned : building :=
  {| b_score_hit := None; b_score_total := None; b_score_hit_sus := None;
     b_score_hit_mal := None; b_score_known := None;
     b_score_unknown := None |}.

Definition set_hit (v : Z) (b : building) : building :=
  {| b_score_hit := Some v; b_score_total := b_score_total b;
     b_score_hit_sus := b_score_hit_sus b;
     b_score_hit_mal := b_score_hit_mal b;
     b_score_known := b_score_known b;
     b_score_unknown := b_score_unknown b |}.

Definition set_total (v : Z) (b : building) : building :=
  {| b_score_hit := b_score_hit b; b_score_total := Some v;
     b_score_hit_sus := b_score_hit_sus b;
     b_score_hit_mal := b_score_hit_mal b;
     b_score_known := b_score_known b;
     b_score_unknown := b_score_unknown b |}.

Definition set_hit_sus (v : Z) (b : building) : building :=
  {| b_score_hit := b_score_hit b; b_score_total := b_score_total b;
     b_score_hit_sus := Some v; b_score_hit_mal := b_score_hit_mal b;
     b_score_known := b_score_known b;
     b_score_unknown := b_score_unknown b |}.

Definition set_hit_mal (v : Z) (b : building) : building :=
  {| b_score_hit := b_score_hit b; b_score_total := b_score_total b;
     b_score_hit_sus := b_score_hit_sus b; b_score_hit_mal := Some v;
     b_score_known := b_score_known b;
     b_score_unknown := b_score_unknown b |}.

Definition set_known (v : Z) (b : building) : building :=
  {| b_score_hit := b_score_hit b; b_score_total := b_score_total b;
     b_score_hit_sus := b_score_hit_sus b;
     b_score_hit_mal := b_score_hit_mal b; b_score_known := Some v;
     b_score_unknown := b_score_unknown b |}.

Definition set_unknown (v : Z) (b : building) : building :=
  {| b_score_hit := b_score_hit b; b_score_total := b_score_total b;
     b_score_hit_sus := b_score_hit_sus b;
     b_score_hit_mal := b_score_hit_mal b;
     b_score_known := b_score_known b; b_score_unknown := Some v |}.

(** Reading [self.<attr>]. *)
Definition attr (f : building → option Z) : M building Z :=
  v ← gets f;
  match v with
  | Some z => mret z
  | None => raise AttributeError
  end.

(** [x and flag] where the local [flag] is bound (to [True]) only on one
    path: reading it unbound raises [UnboundLocalError]. *)
Definition and_flag (x : bool) (flag : option bool) : M building bool :=
  if x then
    match flag with
    | Some f => mret f
    | None => raise UnboundLocalError
    end
  else mret false.

(** The body of the first [for alert in threat_intel_alerts]. *)
Definition count_hit (calc_sus calc_mal : option bool) (alert : ThreatIntel)
    : M building ctl :=
  (if ti_is_hit alert then
     h ← attr b_score_hit;
     modify (set_hit (h + 1));;
     sus ← and_flag (String.eqb (ti_hit_type alert) "suspicious") calc_sus;
     (if sus : bool then
        s ← attr b_score_hit_sus; modify (set_hit_sus (s + 1))
      else mret ());;
     mal ← and_flag (String.eqb (ti_hit_type alert) "malicious") calc_mal;
     (if mal : bool then
        m ← attr b_score_hit_mal; modify (set_hit_mal (m + 1))
      else mret ())
   else mret ());;
  mret Continue.

(** The body of the second loop, which counts the engines that know the
    indicator. *)
Definition count_known (alert : ThreatIntel) : M building ctl :=
  (if default false (ti_is_known alert) then
     k ← attr b_score_known; modify (set_known (k + 1))
   else mret ());;
  mret Continue.

(** Truthiness of [threat_intel_alerts]: a non-empty list. *)
Definition engines (tia : option (list ThreatIntel)) : list ThreatIntel :=
  default [] tia.

(** The score part of [ContextThreatIntel.__init__]; the state is [self].
    Every range and consistency test of the source has [pass] as its body
    and so leaves no trace here. *)
Definition init_scores (threat_intel_alerts : option (list ThreatIntel))
    (score_hit score_total score_hit_sus score_hit_mal score_known
       score_unknown : option Z) : M building unit :=
  match score_hit, score_total, score_hit_sus, score_hit_mal with
  | Some h, Some t, Some _, Some _ =>
      modify (set_hit h);; modify (set_total t)
  | _, _, _, _ =>
      modify (set_total (Z.of_nat (length (engines threat_intel_alerts))));;
      modify (set_hit 0);;
      (if score_hit_sus is None then modify (set_hit_sus 0) else mret ());;
      (if score_hit_mal is None then modify (set_hit_mal 0) else mret ());;
      for_in (engines threat_intel_alerts)
        (count_hit (if score_hit_sus is None then Some true else None)
                   (if score_hit_mal is None then Some true else None))
  end;;
  (if score_hit_sus is Some s then modify (set_hit_sus s) else mret ());;
  (if score_hit_mal is Some m then modify (set_hit_mal m) else mret ());;
  match score_known with
  | Some k => modify (set_known k)
  | None =>
      modify (set_known 0);;
      for_in (engines threat_intel_alerts) count_known
  end;;
  match score_unknown with
  | Some u => modify (set_unknown u)
  | None =>
      known ← gets b_score_known;
      total ← gets b_score_total;
      match known, total with
      | Some k, Some t => modify (set_unknown (t - k))
      | _, _ =>
          mlog ERROR
            "Class ThreatIntel __init__: implicit calculation of score_unknown: score_unknown is not set and score_known or score_total is None. score_unknown cannot be calculated. You shouldn't see this message. Please case this issue.";;
          raise SystemError
      end
  end.

(** [ContextThreatIntel(timestamp=..., threat_intel_alerts=..., score_*=...,
    alert_relevance=...)]: the constructed object, or the exception. *)
Definition new_ContextThreatIntel (timestamp : pytime)
    (threat_intel_alerts : option (list ThreatIntel))
    (score_hit score_total score_hit_sus score_hit_mal score_known
       score_unknown : option Z) (alert_relevance : pynum)
    : M building ContextThreatIntel :=
  init_scores threat_intel_alerts score_hit score_total score_hit_sus
    score_hit_mal score_known score_unknown;;
  relevance ← lift (handle_percentage alert_relevance);
  h ← attr b_score_hit; t ← attr b_score_total;
  s ← attr b_score_hit_sus; m ← attr b_score_hit_mal;
  k ← attr b_score_known; u ← attr b_score_unknown;
  mret {| cti_timestamp := timestamp;
          cti_threat_intel_alerts := threat_intel_alerts;
          cti_score_hit := h; cti_score_total := t;
          cti_score_hit_sus := s; cti_score_hit_mal := m;
          cti_score_known := k; cti_score_unknown := u;
          cti_alert_relevance := relevance |}.

End Intel.

(** A case with one alert in which a playbook has filed the row at address
    1 and marked it successful; the row at address 2 has the same pair. *)
Definition example_alert : Alert :=
  {| alert_name := Some "ET MALWARE"; alert_rules := None;
     alert_indicators := empty_indicators |}.

Definition example_calls : list Audit.call :=
  [Audit.CallUpdateAudit (Some 1);
   Audit.CallSetSuccessful 1 "Successfully added note." Audit.DNone None 3;
   Audit.CallUpdateAudit (Some 1)].

Definition example_world : Audit.world :=
  fst (Audit.perform_all (λ _ _, Ok ()) example_calls
         (Audit.new_world [example_alert] 7 0 0 (λ _, example_row "PB_020" 2))
         []).

(** ** The whitelist filter ([Alert.check_against_whitelist]) *)

Module Whitelist.

(** What [config_helper.Config().cfg["cache"]["file"]] yields: the two
    settings read, or the text of the exception raised on the way. *)
Inductive config :=
  | ConfigError (message : string)
  | Config (enabled : bool) (path : string).

(** The cache file: the JSON object it holds, every category being a list
    of strings, or the text of the exception that opening or parsing it
    raises. *)
Inductive cache_file :=
  | Unreadable (message : string)
  | Loaded (content : gmap string (gmap string (list string))).

(** Everything the check can see. *)
Record env := {
  self : Alert;
  cfg : config;
  cache : cache_file
}.

(** [cache[integration][category]]; [None] stands for the [KeyError] of
    either subscript. *)
Definition entry (content : gmap string (gmap string (list string)))
    (integration category : string) : option (list string) :=
  match content !! integration with
  | Some categories => categories !! category
  | None => None
  end.

(** [generic_helper.get_from_cache(integration, category)] with the default
    [key="LIST"], which is how the whitelist check calls it. *)
Definition get_from_cache (integration category : string)
    : M env (option (list string)) :=
  c ← gets cfg;
  match c with
  | ConfigError message =>
      mlog WARNING ("get_from_cache() - Error getting value from cache: " +:+ message);;
      mret None
  | Config false _ => mret None
  | Config true path =>
      mlog DEBUG
        ("get_from_cache() - Cache is enabled, checking cache for category '"
         +:+ category +:+ "' with key: '" +:+ "LIST" +:+ "' in integration: "
         +:+ integration);;
      mlog DEBUG ("get_from_cache() - Loading cache file: " +:+ path);;
      f ← gets cache;
      match f with
      | Unreadable message =>
          mlog WARNING
            ("get_from_cache() - Error getting value from cache: " +:+ message);;
          mret None
      | Loaded content =>
          mlog DEBUG "get_from_cache() - Category stores a list, returning list";;
          match entry content integration category with
          | Some l => mret (Some l)
          | None =>
              mlog DEBUG "get_from_cache() - Category does not exist in cache";;
              mret None
          end
      end
  end.

(** [wl = list(set(wl)); wl = [x for x in wl if x != ""]] on the value the
    cache returned, [None] counting as the empty list.  The order that
    [set] leaves is not observed by the check. *)
Definition clean (wl : option (list string)) : list string :=
  filter (λ x, x ≠ "") (PyStr.fromkeys (default [] wl)).

(** [value in wl] for a list of strings: an address object or [None] equals
    no string. *)
Definition occurs (value : indicator) (wl : list string) : bool :=
  match value with
  | IStr s => bool_decide (s ∈ wl)
  | INone | IAddr _ => false
  end.

(** [str(value)] inside the log line. *)
Definition show (show_ip : ipaddr → string) (value : indicator) : string :=
  match value with
  | IStr s => s
  | INone => "None"
  | IAddr a => show_ip a
  end.

Section WithAddressText.

(** [str] of an address object, from Python's [ipaddress]. *)
Context (show_ip : ipaddr → string).

(** One of the five blocks of the check: read and clean the allow-list,
    log its size, return at the first indicator of the category that
    occurs in it.  The result says whether one did. *)
Definition check_category (integration plural category singular : string)
    : M env bool :=
  wl ← get_from_cache integration "LIST";
  let wl := clean wl in
  mlog DEBUG ("Found " +:+ pretty (length wl) +:+ " " +:+ plural
              +:+ " in global whitelist.");;
  ind ← gets (λ e, alert_indicators (self e));
  match ind !! category with
  | None => raise KeyError
  | Some values =>
      match list_find (λ v, occurs v wl = true) values with
      | Some (_, v) =>
          mlog INFO (singular +:+ " '" +:+ show show_ip v +:+ "' is whitelisted.");;
          mret true
      | None => mret false
      end
  end.

(** [Alert.check_against_whitelist()]. *)
Definition check_against_whitelist : M env bool :=
  hit ← check_category "global_whitelist_ips" "IPs" "ip" "IP";
  if hit : bool then mret true else
  hit ← check_category "global_whitelist_domains" "domains" "domain" "Domain";
  if hit : bool then mret true else
  hit ← check_category "global_whitelist_hashes" "hashes" "hash" "Hash";
  if hit : bool then mret true else
  hit ← check_category "global_whitelist_urls" "URLs" "url" "URL";
  if hit : bool then mret true else
  hit ← check_category "global_whitelist_emails" "emails" "email" "Email";
  if hit : bool then mret true else
  mlog DEBUG "Alert is not whitelisted in the global whitelist.";;
  mret false.

End WithAddressText.

(** The five categories the check reads, each with the cache entry of its
    allow-list. *)
Definition checked : list (string * string) :=
  [("ip", "global_whitelist_ips"); ("domain", "global_whitelist_domains");
   ("hash", "global_whitelist_hashes"); ("url", "global_whitelist_urls");
   ("email", "global_whitelist_emails")].

(** The cleaned allow-list that the check would read for a cache entry. *)
Definition allow_list (e : env) (integration : string) : list string :=
  clean
    match cfg e, cache e with
    | Config true _, Loaded content => entry content integration "LIST"
    | _, _ => None
    end.

(** Some indicator of one of the five categories occurs in the allow-list
    of its category. *)
Definition whitelisted (e : env) : Prop :=
  ∃ category integration value values,
    (category, integration) ∈ checked
    ∧ alert_indicators (self e) !! category = Some values
    ∧ value ∈ values
    ∧ occurs value (allow_list e integration) = true.

(** The indicator dict has the five categories, as both constructors of
    [Alert] leave it. *)
Definition has_categories (a : Alert) : Prop :=
  ∀ category integration,
    (category, integration) ∈ checked →
    is_Some (alert_indicators a !! category).

(** An alert with one domain indicator, and a cache whose domain
    allow-list names it twice beside an empty entry. *)
Definition example_env : env :=
  {| self :=
       {| alert_name := Some "ET POLICY"; alert_rules := None;
          alert_indicators :=
            <["domain" := [IStr "updates.example.com"]]>
              (<["ip" := [IAddr (IPv4 167772165%N)]]> empty_indicators) |};
     cfg := Config true "cache.json";
     cache := Loaded
       (<["global_whitelist_domains" :=
            <["LIST" := ["updates.example.com"; EmptyString;
                         "updates.example.com"]]> ∅]> ∅) |}.

End Whitelist.

(** ** The playbook dispatch loop ([isoar_case_worker.main]) *)

Module Worker.

(** The [CaseFile] objects that exist, by address. *)
Definition objects := nat → CaseFile.

(** What [irsoar_handle_alert] returned: a [CaseFile] object, or a value
    of another type. *)
Inductive returned :=
  | ReturnedCase (new : nat)
  | ReturnedOther.

(** An imported module: its two entry points, [None] for an attribute the
    module does not have.  An entry point may change any case object, log,
    and raise. *)
Record py_module := {
  irsoar_can_handle_alert : option (nat → M objects bool);
  irsoar_handle_alert : option (nat → M objects returned)
}.

(** What [main] holds while it works on one case. *)
Record locals := {
  heap : objects;
  case_file_history : list nat;
  alertHandled : bool
}.

Definition set_heap (v : objects) (s : locals) : locals :=
  {| heap := v; case_file_history := case_file_history s;
     alertHandled := alertHandled s |}.

Definition set_case_file_history (v : list nat) (s : locals) : locals :=
  {| heap := heap s; case_file_history := v; alertHandled := alertHandled s |}.

Definition set_alertHandled (v : bool) (s : locals) : locals :=
  {| heap := heap s; case_file_history := case_file_history s;
     alertHandled := v |}.

(** A call into a module: the callee works on the case objects and can add
    to the log, not rewrite it. *)
Definition call {A} (f : M objects A) : M locals A :=
  λ s l, let o := f (heap s) [] in
         Out (result o) (set_heap (state o) s) (l ++ logged o).

(** [getattr(module, name)]. *)
Definition getattr {St A} (attribute : option A) : M St A :=
  match attribute with
  | Some f => mret f
  | None => raise AttributeError
  end.

(** [a + b] where [b] may be [None]. *)
Definition plus {St} (a : string) (b : option string) : M St string :=
  match b with
  | Some s => mret (a +:+ s)
  | None => raise TypeError
  end.

(** A value inside an f-string. *)
Definition fstr (o : option string) : string := default "None" o.

Section WithInterpreter.

(** [__import__(path)] followed by the lookup of the submodule, and
    [traceback.format_exc()] for the exception being handled. *)
Context (py_import : string → res py_module).
Context (format_exc : exn → string).

(** [check_module_exists(module_name, alert_playbook, case_playbook)]. *)
Definition check_module_exists {St} (module_name : string)
    (alert_playbook case_playbook : bool) : M St bool :=
  try_except
    ((if negb alert_playbook then
        lift (py_import ("integrations." +:+ module_name));; mret ()
      else if alert_playbook then
        lift (py_import ("alert_playbooks." +:+ module_name));; mret ()
      else if case_playbook then
        lift (py_import ("case_playbooks." +:+ module_name));; mret ()
      else mret ());;
     mret true)
    is_ImportError (λ _, mret false).

(** [CaseFile.get_title()] of the case at [c]. *)
Definition get_title (c : nat) : M locals (option string) :=
  als ← gets (λ s, alerts (heap s c));
  match mapM alert_rules als with
  | Some names =>
      match List.concat names with
      | name :: _ => mret (Some name)
      | [] => first ← Timeline.index als 0; mret (alert_name first)
      end
  | None => first ← Timeline.index als 0; mret (alert_name first)
  end.

(** The body of [for playbook_name in config["playbooks"]], for the case at
    [c]. *)
Definition try_playbook (c : nat) (alert_title : option string)
    (alert_id : Z) (entry : string * bool) : M locals ctl :=
  let playbook_name := entry.1 in
  if negb entry.2 then
    mlog WARNING ("The playbook " +:+ playbook_name +:+ " is disabled. Skipping.");;
    mret Continue
  else
    found ← check_module_exists playbook_name false true;
    if negb found then
      mlog ERROR ("The playbook " +:+ playbook_name +:+ " does not exist. Skipping.");;
      mret Continue
    else
      asked ← try_except
        (mlog INFO
           ("Calling playbook " +:+ playbook_name
            +:+ " to check if it can handle current alert '"
            +:+ fstr alert_title +:+ "' (" +:+ pretty alert_id +:+ ")");;
         playbook_import ← lift (py_import ("playbooks." +:+ playbook_name));
         predicate ← getattr (irsoar_can_handle_alert playbook_import);
         can_handle ← call (predicate c);
         mret (Some (playbook_import, can_handle)))
        is_Exception
        (λ e,
           mlog WARNING
             ("The playbook " +:+ playbook_name
              +:+ " failed to check if it can handle the alert. Error: "
              +:+ format_exc e);;
           mret None);
      match asked with
      | None => mret Continue
      | Some (playbook_import, false) =>
          mlog INFO "Playbook can not handle the alert. Skipping.";;
          mret Continue
      | Some (playbook_import, true) =>
          handled ← try_except
            (mlog INFO
               ("Playbook can handle the alert. Calling it to handle: '"
                +:+ fstr alert_title +:+ "' (" +:+ pretty alert_id +:+ ")");;
             handler ← getattr (irsoar_handle_alert playbook_import);
             case_file_new ← call (handler c);
             mret (Some case_file_new))
            is_Exception
            (λ e,
               mlog WARNING
                 ("The playbook " +:+ playbook_name
                  +:+ " failed to handle the alert. Error: " +:+ format_exc e);;
               mret None);
          match handled with
          | None => mret Continue
          | Some ReturnedOther =>
              mlog ERROR
                ("The playbook " +:+ playbook_name
                 +:+ " did not return a valid alert case. Skipping.");;
              mret Continue
          | Some (ReturnedCase case_file_new) =>
              mlog INFO
                ("The playbook " +:+ playbook_name
                 +:+ " handled the alert correctly.");;
              modify (set_alertHandled true);;
              mlog INFO
                ("Adding alert case for alert " +:+ fstr alert_title +:+ " ("
                 +:+ pretty alert_id +:+ ") to the alert case array.");;
              modify (λ s,
                set_heap
                  (<[case_file_new :=
                       set_playbooks
                         (playbooks (heap s case_file_new) ++ [playbook_name])
                         (heap s case_file_new)]> (heap s)) s);;
              modify (λ s,
                set_case_file_history
                  (case_file_history s ++ [case_file_new]) s);;
              mret Continue
          end
      end.

(** One round of [for case in case_list], up to the report on whether a
    playbook handled the case (lines 214 to 277).  The final audit row and
    the note pushed to the case manager, which follow in the source, are
    not part of it. *)
Definition dispatch_case (config_playbooks : list (string * bool)) (c : nat)
    : M locals unit :=
  alert_title ← get_title c;
  alert_id ← gets (λ s, uuid (heap s c));
  modify (set_alertHandled false);;
  for_in config_playbooks (try_playbook c alert_title alert_id);;
  handled ← gets alertHandled;
  if handled : bool then
    m ← plus "Alert " alert_title;
    mlog INFO (m +:+ " (" +:+ pretty alert_id +:+ ") was handled successfully.")
  else
    m ← plus "No playbook was able to handle the alert " alert_title;
    mlog WARNING (m +:+ " (" +:+ pretty alert_id +:+ ").").

(** The first line that the loop logs for a playbook: that it is disabled,
    that it does not exist, or that it is being asked. *)
Definition first_line (alert_title : option string) (alert_id : Z)
    (entry : string * bool) : log_entry :=
  if negb entry.2 then
    LogEntry WARNING ("The playbook " +:+ entry.1 +:+ " is disabled. Skipping.")
  else
    match py_import ("integrations." +:+ entry.1) with
    | Raise _ =>
        LogEntry ERROR
          ("The playbook " +:+ entry.1 +:+ " does not exist. Skipping.")
    | Ok _ =>
        LogEntry INFO
          ("Calling playbook " +:+ entry.1
           +:+ " to check if it can handle current alert '"
           +:+ fstr alert_title +:+ "' (" +:+ pretty alert_id +:+ ")")
    end.

(** The line that reports a playbook whose import failed. *)
Definition import_fault_line (name : string) (e : exn) : log_entry :=
  LogEntry WARNING
    ("The playbook " +:+ name
     +:+ " failed to check if it can handle the alert. Error: "
     +:+ format_exc e).

(** Every exception that the entry points of a module raise derives from
    [Exception]. *)
Definition raises_only_Exception (m : py_module) : Prop :=
  (∀ f c h l e, irsoar_can_handle_alert m = Some f →
     result (f c h l) = Raise e → is_Exception e = true)
  ∧ (∀ f c h l e, irsoar_handle_alert m = Some f →
       result (f c h l) = Raise e → is_Exception e = true).

(** The faults of a playbook stay within what the loop catches: the
    existence test fails by [ImportError] only, and the import of the
    playbook and its entry points raise exceptions that derive from
    [Exception]. *)
Definition ordinary_faults (playbook_name : string) : Prop :=
  (∀ e, py_import ("integrations." +:+ playbook_name) = Raise e →
     is_ImportError e = true)
  ∧ match py_import ("playbooks." +:+ playbook_name) with
    | Raise e => is_Exception e = true
    | Ok m => raises_only_Exception m
    end.

End WithInterpreter.

(** Playbook modules for worked examples: one that takes every case and
    returns it, one that declines, one whose predicate raises [e]. *)
Definition taking : py_module :=
  {| irsoar_can_handle_alert := Some (λ _, mret true);
     irsoar_handle_alert := Some (λ c, mret (ReturnedCase c)) |}.

Definition declining : py_module :=
  {| irsoar_can_handle_alert := Some (λ _, mret false);
     irsoar_handle_alert := Some (λ c, mret (ReturnedCase c)) |}.

Definition failing (e : exn) : py_module :=
  {| irsoar_can_handle_alert := Some (λ _, raise e);
     irsoar_handle_alert := Some (λ c, mret (ReturnedCase c)) |}.

(** An interpreter in which every module can be imported, and the
    playbooks are the given modules. *)
Definition importing (installed : list (string * py_module)) (path : string)
    : res py_module :=
  match list_find (λ p, "playbooks." +:+ p.1 = path) installed with
  | Some (_, p) => Ok p.2
  | None => Ok declining
  end.

Definition two_takers : string → res py_module :=
  importing [("PB_A", taking); ("PB_B", taking)].

Definition exiting_first : string → res py_module :=
  importing [("PB_1", failing SystemExit); ("PB_3", taking)].

Definition second_fails : string → res py_module :=
  importing [("PB_1", declining); ("PB_2", failing ValueError);
             ("PB_3", taking)].

(** An interpreter in which the module [integrations.PB_1] raises
    [KeyError] while it is imported. *)
Definition broken_integration (path : string) : res py_module :=
  if decide (path = "integrations.PB_1") then Raise KeyError
  else two_takers path.

(** The playbooks of the worked examples, all enabled. *)
Definition three_playbooks : list (string * bool) :=
  [("PB_1", true); ("PB_2", true); ("PB_3", true)].

(** One case, at address 0, made of [example_alert]. *)
Definition one_case : locals :=
  {| heap := λ _, Case.new_case [example_alert] 7 0;
     case_file_history := []; alertHandled := false |}.

End Worker.

(** * Properties *)

(** Unfolding the monad's operations. *)
Ltac unfold_monad :=
  unfold mbind, M_bind, mret, M_ret, bind, ret, raise, lift, gets, modify,
    mlog, try_except, zoom in *.

Lemma bind_run {St A B} (m : M St A) (k : A → M St B) s l :
  (m ≫= k) s l
  = match m s l with
    | Out (Ok a) s' l' => k a s' l'
    | Out (Raise e) s' l' => Out (Raise e) s' l'
    end.
Proof. reflexivity. Qed.

Lemma for_live_S {St A} n idx (cur : St → list A) (body : A → M St unit) s l :
  for_live (S n) idx cur body s l
  = match cur s !! idx with
    | None => Out (Ok ()) s l
    | Some x =>
        match body x s l with
        | Out (Ok _) s' l' => for_live n (S idx) cur body s' l'
        | Out (Raise e) s' l' => Out (Raise e) s' l'
        end
    end.
Proof.
  simpl. rewrite bind_run. unfold gets. by destruct (cur s !! idx).
Qed.

(** A loop over a list that its body never lengthens ends by running off
    the end of the list: fuel beyond the initial length changes nothing. *)
Lemma for_live_fuel {St A} (cur : St → list A) (body : A → M St unit) :
  (∀ x s l, x ∈ cur s → length (cur (state (body x s l))) ≤ length (cur s)) →
  ∀ fuel idx s l,
    length (cur s) ≤ fuel + idx →
    for_live (S fuel) idx cur body s l = for_live fuel idx cur body s l.
Proof.
  intros Hbody. induction fuel as [|n IH]; intros idx s l Hlen.
  - simpl. rewrite bind_run. unfold gets.
    rewrite (lookup_ge_None_2 (cur s) idx) by lia. done.
  - change (for_live (S (S n)) idx cur body s l)
      with ((gets cur ≫= λ l0, match l0 !! idx with
                               | None => ret ()
                               | Some x => body x ≫= λ _, for_live (S n) (S idx) cur body
                               end) s l).
    change (for_live (S n) idx cur body s l)
      with ((gets cur ≫= λ l0, match l0 !! idx with
                               | None => ret ()
                               | Some x => body x ≫= λ _, for_live n (S idx) cur body
                               end) s l).
    rewrite !bind_run. unfold gets.
    destruct (cur s !! idx) as [x|] eqn:Hx; [|done].
    rewrite !bind_run.
    pose proof (Hbody x s l (list_elem_of_lookup_2 _ _ _ Hx)) as Hle.
    destruct (body x s l) as [[[]|e] s' l']; [|done].
    simpl in Hle. apply IH. lia.
Qed.

(** ** Timeline store *)

Module TimelineFacts.
Import Timeline.

Lemma ts_of_attr o t : ts_of o = Some t → timestamp_attr o = Ok (Some t).
Proof.
  unfold ts_of. destruct (timestamp_attr o) as [[z|]|]; simpl; intros; by simplify_eq.
Qed.

Lemma insert_before_first_later_perm item t l :
  insert_before_first_later item t l ≡ₚ item :: l.
Proof.
  induction l as [|x l IH]; simpl; [done|].
  destruct (ts_of x) as [tx|].
  - case_bool_decide; [done|]. rewrite IH. apply Permutation_swap.
  - rewrite IH. apply Permutation_swap.
Qed.

Lemma insert_before_first_later_length item t l :
  length (insert_before_first_later item t l) = S (length l).
Proof. by rewrite insert_before_first_later_perm. Qed.

Lemma timeline_step_run item t pre x rest lg tx :
  ts_of x = Some tx →
  timeline_step item (Some t) (length pre) (pre ++ x :: rest) lg
  = if bool_decide (t < tx)%Z then Out (Ok Break) (pre ++ item :: x :: rest) lg
    else if bool_decide (rest = []) then Out (Ok Break) (pre ++ [x; item]) lg
    else Out (Ok Continue) (pre ++ x :: rest) lg.
Proof.
  intros Hx. unfold timeline_step, index. unfold_monad. unfold id.
  rewrite lookup_app_r by lia. rewrite Nat.sub_diag. simpl.
  rewrite (ts_of_attr _ _ Hx). simpl.
  case_bool_decide as Hlt.
  - unfold list_insert_at. by rewrite take_app_length, drop_app_length.
  - rewrite length_app. simpl. destruct rest as [|y rest].
    + rewrite bool_decide_true by (simpl; lia). simpl.
      by rewrite <- app_assoc.
    + rewrite bool_decide_false by (simpl; lia). done.
Qed.

(** The index loop, started at position [length pre] with the elements of
    [pre] already passed, computes the specified insertion on the rest. *)
Lemma timeline_loop item t rest : ∀ pre lg,
  comparable rest → rest ≠ [] →
  for_in (seq (length pre) (length rest)) (timeline_step item (Some t))
    (pre ++ rest) lg
  = Out (Ok ()) (pre ++ insert_before_first_later item t rest) lg.
Proof.
  induction rest as [|x rest IH]; intros pre lg Hc Hne; [done|].
  apply Forall_cons in Hc as [[tx Hx] Hc].
  simpl seq. simpl for_in. unfold mbind, M_bind, bind.
  rewrite (timeline_step_run item t pre x rest lg tx Hx). simpl. rewrite Hx.
  case_bool_decide as Hlt; [done|].
  destruct rest as [|y rest]; [done|].
  rewrite bool_decide_false by done.
  specialize (IH (pre ++ [x]) lg Hc ltac:(done)).
  rewrite length_app, Nat.add_1_r in IH.
  rewrite <- !app_assoc in IH. apply IH.
Qed.

Lemma add_to_timeline_obj c t l lg :
  comparable l →
  add_to_timeline (Obj c) (Some t) l lg
  = Out (Ok ()) (insert_before_first_later (Obj c) t l) lg.
Proof.
  intros Hc. unfold add_to_timeline. simpl. unfold_monad.
  case_bool_decide as Hn.
  - by destruct l.
  - apply (timeline_loop (Obj c) t l [] lg Hc). by destruct l.
Qed.

Lemma insert_before_first_later_ascending item t l :
  ts_of item = Some t → comparable l → ascending l →
  ascending (insert_before_first_later item t l).
Proof.
  unfold ascending. intros Hi Hc Hs.
  induction l as [|x l IH]; simpl.
  - repeat constructor.
  - apply Forall_cons in Hc as [[tx Hx] Hc].
    apply StronglySorted_inv in Hs as [Hs Hall]. rewrite Hx.
    case_bool_decide as Hlt.
    + constructor; [by constructor|]. constructor.
      * unfold ts_le. rewrite Hi, Hx. lia.
      * eapply Forall_impl; [exact Hall|]. intros y. unfold ts_le.
        rewrite Hi, Hx. destruct (ts_of y); [lia|done].
    + constructor; [by apply IH|].
      rewrite insert_before_first_later_perm. constructor; [|done].
      unfold ts_le. rewrite Hi, Hx. lia.
Qed.

Lemma insert_before_first_later_comparable item t l :
  ts_of item = Some t → comparable l →
  comparable (insert_before_first_later item t l).
Proof.
  unfold comparable. intros Hi Hc.
  rewrite insert_before_first_later_perm. constructor; [by eexists|done].
Qed.

Lemma add_all_ascending cs : ∀ l lg,
  Forall (λ c, is_Some (ts_of (Obj c))) cs →
  comparable l → ascending l →
  let o := add_all cs l lg in
  result o = Ok () ∧ ascending (state o) ∧ comparable (state o)
  ∧ length (state o) = length cs + length l.
Proof.
  induction cs as [|c cs IH]; intros l lg Hcs Hc Hs; simpl.
  - done.
  - apply Forall_cons in Hcs as [[t Ht] Hcs].
    pose proof (ts_of_attr _ _ Ht) as Ha. simpl in Ha.
    rewrite bind_run. unfold lift. rewrite Ha, bind_run.
    rewrite (add_to_timeline_obj c t l lg Hc).
    destruct (IH (insert_before_first_later (Obj c) t l) lg Hcs) as (?&?&?&Hl).
    { by apply insert_before_first_later_comparable. }
    { by apply insert_before_first_later_ascending. }
    repeat split; try done.
    rewrite Hl, insert_before_first_later_length. lia.
Qed.

Lemma insert_before_first_later_split item t l :
  comparable l →
  ∃ pre post,
    l = pre ++ post
    ∧ insert_before_first_later item t l = pre ++ item :: post
    ∧ Forall (λ x, ∃ tx, ts_of x = Some tx ∧ (tx ≤ t)%Z) pre
    ∧ match post with
      | [] => True
      | y :: _ => ∃ ty, ts_of y = Some ty ∧ (t < ty)%Z
      end.
Proof.
  induction 1 as [|x l [tx Hx] Hc (pre & post & -> & Hins & Hpre & Hpost)].
  - by exists [], [].
  - simpl. rewrite Hx. case_bool_decide as Hlt.
    + exists [], (x :: pre ++ post). repeat split; eauto.
    + exists (x :: pre), post. rewrite Hins. repeat split; [|done].
      constructor; [|done]. exists tx. split; [done|lia].
Qed.

(** C5: on a collection whose elements have comparable timestamps, adding a
    context object returns normally and places it immediately before the
    first element whose timestamp is strictly greater than the given one,
    at the end when there is none; an ascending collection stays ascending
    when the object is filed under its own timestamp, and any run of such
    insertions into an empty collection, in any order, ends ascending. *)
Theorem add_to_timeline_positions_and_sorts
    (c : context) (t : Z) (l : list pyobj) (lg : list log_entry) :
  comparable l →
  (∃ pre post,
      l = pre ++ post
      ∧ add_to_timeline (Obj c) (Some t) l lg
        = Out (Ok ()) (pre ++ Obj c :: post) lg
      ∧ Forall (λ x, ∃ tx, ts_of x = Some tx ∧ (tx ≤ t)%Z) pre
      ∧ match post with
        | [] => True
        | y :: _ => ∃ ty, ts_of y = Some ty ∧ (t < ty)%Z
        end)
  ∧ (ascending l → context_timestamp c = Ok (Some t) →
     ascending (state (add_to_timeline (Obj c) (Some t) l lg)))
  ∧ (∀ cs, Forall (λ c, is_Some (ts_of (Obj c))) cs →
     result (add_all cs [] lg) = Ok ()
     ∧ ascending (state (add_all cs [] lg))).
Proof.
  intros Hc. split; [|split].
  - destruct (insert_before_first_later_split (Obj c) t l Hc)
      as (pre & post & Hl & Hins & Hpre & Hpost).
    exists pre, post. rewrite add_to_timeline_obj, Hins by done. done.
  - intros Hs Ht. rewrite add_to_timeline_obj by done. simpl.
    apply insert_before_first_later_ascending; [|done..].
    unfold ts_of. simpl. by rewrite Ht.
  - intros cs Hcs.
    destruct (add_all_ascending cs [] lg Hcs) as (?&?&?&?);
      [constructor|constructor|done].
Qed.

Lemma add_to_timeline_positions_and_sorts_witness :
  add_to_timeline (person_at 3) (Some 3%Z) [person_at 1; person_at 3; person_at 5] []
  = Out (Ok ()) [person_at 1; person_at 3; person_at 3; person_at 5] []
  ∧ ascending (state (add_to_timeline (person_at 3) (Some 3%Z)
                        [person_at 1; person_at 3; person_at 5] [])).
Proof.
  assert (Hc : comparable [person_at 1; person_at 3; person_at 5]).
  { repeat constructor; by eexists. }
  assert (Hs : ascending [person_at 1; person_at 3; person_at 5]).
  { repeat constructor; unfold ts_le; simpl; lia. }
  destruct (add_to_timeline_positions_and_sorts
              (CtxPerson {| person_timestamp := Some 3%Z |}) 3
              [person_at 1; person_at 3; person_at 5] [] Hc) as (_ & Hsort & _).
  split; [reflexivity|]. exact (Hsort Hs eq_refl).
Defined.

(** C2 (the code departs from it): a collection that already holds 1000
    entries still takes a further context object and ends with 1001,
    nothing being logged; the overflow test looks at the item that is
    added, which for a context object is never a list. *)
Theorem add_to_timeline_grows_past_threshold :
  let full := replicate THRESHOLD_MAX_CONTEXTS (person_at 0) in
  let o := add_to_timeline (person_at 0) (Some 0%Z) full [] in
  length full = 1000
  ∧ result o = Ok ()
  ∧ length (state o) = 1001
  ∧ logged o = [].
Proof.
  intros full o.
  assert (Hc : comparable full).
  { apply Forall_replicate. by eexists. }
  subst o.
  pose proof (add_to_timeline_obj
                (CtxPerson {| person_timestamp := Some 0%Z |}) 0 full [] Hc) as E.
  change (Obj _) with (person_at 0) in E. rewrite E.
  cbn [result state logged].
  rewrite insert_before_first_later_length.
  subst full. rewrite length_replicate.
  unfold THRESHOLD_MAX_CONTEXTS. repeat split.
Qed.

End TimelineFacts.


(** ** Indicator extraction in [CaseFile.add_context] *)

Module CaseFacts.
Import Case.

Lemma fromkeys_step_NoDup {A} `{EqDecision A} (l : list A) : ∀ acc,
  NoDup acc →
  NoDup (foldl (λ acc x, if decide (x ∈ acc) then acc else acc ++ [x]) acc l).
Proof.
  induction l as [|x l IH]; intros acc Hacc; simpl; [done|].
  apply IH. case_decide; [done|].
  apply NoDup_app. split; [done|]. split.
  - intros y Hy ->%list_elem_of_singleton. done.
  - apply NoDup_singleton.
Qed.

Lemma fromkeys_NoDup {A} `{EqDecision A} (l : list A) :
  NoDup (PyStr.fromkeys l).
Proof. apply fromkeys_step_NoDup, NoDup_nil_2. Qed.

Lemma remove_duplicates_NoDup d k l :
  remove_duplicates_from_dict d !! k = Some l → NoDup l.
Proof.
  unfold remove_duplicates_from_dict. rewrite lookup_fmap.
  destruct (d !! k); simpl; [|done]. intros [= <-]. apply fromkeys_NoDup.
Qed.

Lemma remove_first_length {A} `{EqDecision A} (x : A) (l : list A) :
  x ∈ l → S (length (PyStr.remove_first x l)) = length l.
Proof.
  induction l as [|y l IH]; simpl; [by intros ?%elem_of_nil|].
  intros [->|Hin]%elem_of_cons.
  - by rewrite decide_True.
  - case_decide; [done|]. simpl. by rewrite IH.
Qed.

(** The wildcard pass keeps the length of the domain list, so the length of
    the list at entry is all the fuel its loop can use. *)
Lemma strip_wildcard_length mark x s l :
  x ∈ domain_list s →
  length (domain_list (state (strip_wildcard mark x s l)))
  ≤ length (domain_list s).
Proof.
  intros Hin. unfold strip_wildcard.
  destruct x as [|str|]; try done.
  destruct (PyStr.startswith mark str); [|done].
  rewrite !bind_run. unfold mlog, modify. rewrite bind_run.
  unfold append_indicator. rewrite bind_run. unfold gets. simpl.
  rewrite lookup_insert_eq. unfold modify. simpl.
  unfold domain_list at 1. simpl. rewrite lookup_insert_eq. simpl.
  rewrite length_app. simpl.
  pose proof (remove_first_length (IStr str) (domain_list s) Hin). lia.
Qed.

Lemma strip_wildcards_fuel mark s l d extra :
  indicators s !! "domain" = Some d →
  strip_wildcards mark s l
  = for_live (extra + length d) 0 domain_list (strip_wildcard mark) s l.
Proof.
  intros Hd. unfold strip_wildcards. rewrite bind_run. unfold gets.
  rewrite Hd. induction extra as [|n IH]; [done|].
  rewrite IH. symmetry. apply for_live_fuel.
  - intros. by apply strip_wildcard_length.
  - unfold domain_list. rewrite Hd. simpl. lia.
Qed.

(** A call that returns has finished with the deduplication pass. *)
Lemma add_context_ends_deduplicated ip c cf lg :
  result (add_context ip (Some c) cf lg) = Ok () →
  ∃ d, indicators (state (add_context ip (Some c) cf lg))
       = remove_duplicates_from_dict d.
Proof.
  unfold add_context. rewrite bind_run.
  destruct (read_timestamp c cf lg) as [[t|e] s1 l1]; [|done].
  rewrite bind_run.
  destruct (extract ip c t s1 l1) as [[[]|e] s2 l2]; [|done].
  rewrite bind_run.
  destruct (strip_wildcards "*" s2 l2) as [[[]|e] s3 l3]; [|done].
  intros _. by eexists.
Qed.

(** Whenever [add_context] returns for a context, every indicator category
    of the case is free of duplicates; in particular after the same context
    has been added twice. *)
Theorem add_context_twice_no_duplicates
    (ip_address : string → option ipaddr) (c : context) (cf : CaseFile)
    (lg : list log_entry) :
  let first := add_context ip_address (Some c) cf lg in
  let second := add_context ip_address (Some c) (state first) (logged first) in
  (result first = Ok () →
   ∀ k l, indicators (state first) !! k = Some l → NoDup l)
  ∧ (result second = Ok () →
     ∀ k l, indicators (state second) !! k = Some l → NoDup l).
Proof.
  cbv zeta. split; intros Hok k l Hl.
  - destruct (add_context_ends_deduplicated _ _ _ _ Hok) as [d Hd].
    rewrite Hd in Hl. by eapply remove_duplicates_NoDup.
  - destruct (add_context_ends_deduplicated _ _ _ _ Hok) as [d Hd].
    rewrite Hd in Hl. by eapply remove_duplicates_NoDup.
Qed.

Lemma add_context_twice_no_duplicates_witness :
  let first :=
    add_context (λ _, None) (Some (CtxFlow wildcard_flow)) (new_case [] 1 0) [] in
  let second :=
    add_context (λ _, None) (Some (CtxFlow wildcard_flow)) (state first)
      (logged first) in
  result second = Ok ()
  ∧ indicators (state second) !! "ip"
    = Some [IAddr (IPv4 167772165); IAddr (IPv4 134744072)]
  ∧ NoDup [IAddr (IPv4 167772165); IAddr (IPv4 134744072)].
Proof.
  intros first second.
  assert (Hok : result second = Ok ()) by (vm_compute; reflexivity).
  assert (Hip : indicators (state second) !! "ip"
                = Some [IAddr (IPv4 167772165); IAddr (IPv4 134744072)])
    by (vm_compute; reflexivity).
  split; [exact Hok|]. split; [exact Hip|].
  exact (proj2 (add_context_twice_no_duplicates (λ _, None)
                  (CtxFlow wildcard_flow) (new_case [] 1 0) [])
           Hok "ip" _ Hip).
Defined.

(** C8 (the code departs from it): the DNS answer of [cname_flow] is a host
    name; [cast_to_ipaddress], called with its default [strict=True],
    raises [ValueError] for it after the addresses and the query name have
    been appended and before the deduplication pass.  Adding the flow twice
    therefore leaves every appended value twice in the indicator lists. *)
Theorem add_context_raise_leaves_duplicates
    (ip_address : string → option ipaddr) :
  ip_address "cdn.example.net" = None →
  let first :=
    add_context ip_address (Some (CtxFlow cname_flow)) (new_case [] 1 0) [] in
  let second :=
    add_context ip_address (Some (CtxFlow cname_flow)) (state first)
      (logged first) in
  result first = Raise ValueError
  ∧ result second = Raise ValueError
  ∧ indicators (state second) !! "ip"
    = Some [IAddr (IPv4 167772165); IAddr (IPv4 134744072);
            IAddr (IPv4 167772165); IAddr (IPv4 134744072)]
  ∧ indicators (state second) !! "domain"
    = Some [IStr "www.example.com"; IStr "www.example.com"]
  ∧ ¬ NoDup [IStr "www.example.com"; IStr "www.example.com"].
Proof.
  intros H. cbv zeta.
  unfold add_context, extract, cname_flow, extract_dns, cast_to_ipaddress.
  cbn [flow_dns_query flow_http dns_query_response dns_query_name
       response_truthy].
  rewrite H. vm_compute. repeat split.
  intros Hn%NoDup_cons_1_1. apply Hn. left.
Qed.

Lemma add_context_raise_leaves_duplicates_witness :
  let first :=
    add_context (λ _, None) (Some (CtxFlow cname_flow)) (new_case [] 1 0) [] in
  let second :=
    add_context (λ _, None) (Some (CtxFlow cname_flow)) (state first)
      (logged first) in
  result second = Raise ValueError
  ∧ indicators (state second) !! "domain"
    = Some [IStr "www.example.com"; IStr "www.example.com"].
Proof.
  intros first second.
  destruct (add_context_raise_leaves_duplicates (λ _, None) eq_refl)
    as (_ & H2 & _ & Hd & _).
  exact (conj H2 Hd).
Defined.

(** C3 (the code departs from it): the certificate of [wildcard_flow] names
    [*.example.com] and [*.example.net]; after [add_context] returns, the
    second is still in the domain indicators.  Removing the first while the
    loop iterates over the same list moves the second under the index that
    has just been visited. *)
Theorem add_context_keeps_wildcard_domain
    (ip_address : string → option ipaddr) :
  let o :=
    add_context ip_address (Some (CtxFlow wildcard_flow)) (new_case [] 1 0) [] in
  result o = Ok ()
  ∧ indicators (state o) !! "domain"
    = Some [IStr "www.example.com"; IStr "*.example.net"; IStr "example.com"]
  ∧ PyStr.startswith "*." "*.example.net" = true.
Proof. vm_compute. done. Qed.

End CaseFacts.

(** ** The audit trail *)

Module AuditFacts.
Import Audit.




Lemma remove_first_middle {A} `{EqDecision A} (x : A) (pre rest : list A) :
  x ∉ pre → PyStr.remove_first x (pre ++ x :: rest) = pre ++ rest.
Proof.
  induction pre as [|y pre IH]; simpl; intros Hx.
  - by rewrite decide_True.
  - apply not_elem_of_cons in Hx as [Hne Hx].
    rewrite decide_False by done. by rewrite IH.
Qed.

Lemma filter_all {A} (P : A → Prop) `{∀ x, Decision (P x)} (l : list A) :
  Forall P l → filter P l = l.
Proof.
  induction 1 as [|x l Hx Hl IH]; [done|].
  by rewrite filter_cons_True, IH.
Qed.

Lemma drop_if_same_key_run a h w lg :
  drop_if_same_key a h w lg
  = if bool_decide (key (rows w h) = key (rows w a))
    then Out (Ok ()) (retrail (PyStr.remove_first h (trail_of w)) w) lg
    else Out (Ok ()) w lg.
Proof.
  unfold drop_if_same_key. rewrite bind_run. unfold gets, id.
  by case_bool_decide.
Qed.

(** From an index past which no row carries the pair, the loop changes
    nothing. *)
Lemma drop_loop_idle a n : ∀ idx w lg,
  Forall (λ h, key (rows w h) ≠ key (rows w a)) (drop idx (trail_of w)) →
  for_live n idx trail_of (drop_if_same_key a) w lg = Out (Ok ()) w lg.
Proof.
  induction n as [|n IH]; intros idx w lg Hall; [done|].
  rewrite for_live_S.
  destruct (trail_of w !! idx) as [h|] eqn:Hh; [|done].
  rewrite drop_if_same_key_run.
  assert (Hne : key (rows w h) ≠ key (rows w a)).
  { eapply Forall_forall in Hall; [exact Hall|].
    apply list_elem_of_lookup. exists 0. by rewrite lookup_drop, Nat.add_0_r. }
  rewrite bool_decide_false by done.
  apply IH. replace (S idx) with (idx + 1) by lia.
  rewrite <- drop_drop. by apply Forall_drop.
Qed.

(** On a trail with at most one row per pair the loop removes exactly the
    rows that carry the pair of [a]. *)
Lemma drop_loop a rest : ∀ pre w lg n,
  trail_of w = pre ++ rest →
  Forall (λ h, key (rows w h) ≠ key (rows w a)) pre →
  (∀ i j hi hj, rest !! i = Some hi → rest !! j = Some hj →
     key (rows w hi) = key (rows w a) → key (rows w hj) = key (rows w a) →
     i = j) →
  length rest ≤ n →
  for_live n (length pre) trail_of (drop_if_same_key a) w lg
  = Out (Ok ())
      (retrail (pre ++ filter (λ h, key (rows w h) ≠ key (rows w a)) rest) w)
      lg.
Proof.
  induction rest as [|h rest IH]; intros pre w lg n Ht Hpre Huniq Hn.
  - rewrite drop_loop_idle.
    + rewrite filter_nil, app_nil_r. rewrite app_nil_r in Ht.
      unfold retrail. rewrite <- Ht. by destruct w as [[] r].
    + rewrite Ht, app_nil_r, drop_all. constructor.
  - destruct n as [|n]; [simpl in Hn; lia|].
    rewrite for_live_S, Ht, lookup_app_r, Nat.sub_diag by lia.
    change ((h :: rest) !! 0) with (Some h). cbv beta iota.
    rewrite drop_if_same_key_run, filter_cons.
    destruct (decide (key (rows w h) = key (rows w a))) as [Heq|Hne].
    + rewrite bool_decide_true by done. rewrite decide_False by tauto.
      assert (Hrest : Forall (λ h', key (rows w h') ≠ key (rows w a)) rest).
      { apply Forall_lookup. intros i h' Hi Heq'.
        specialize (Huniq 0 (S i) h h' eq_refl Hi Heq Heq'). lia. }
      rewrite Ht, remove_first_middle.
      2:{ intros Hin. eapply Forall_forall in Hpre; [|exact Hin]. done. }
      rewrite drop_loop_idle.
      * do 3 f_equal. symmetry. by apply filter_all.
      * unfold trail_of, retrail. simpl. rewrite drop_app_ge by lia.
        apply Forall_drop. done.
    + rewrite bool_decide_false by done. rewrite decide_True by done.
      specialize (IH (pre ++ [h]) w lg n).
      rewrite length_app, Nat.add_1_r in IH. rewrite IH.
      * by rewrite <- app_assoc.
      * by rewrite <- app_assoc.
      * apply Forall_app. split; [done|]. by constructor.
      * intros i j hi hj Hi Hj Hki Hkj.
        specialize (Huniq (S i) (S j) hi hj Hi Hj Hki Hkj). lia.
      * simpl in Hn. lia.
Qed.

(** What the first half of [update_audit] leaves alone, and when it
    returns. *)
Lemma record_outcome_effect a w lg :
  let o := record_outcome a w lg in
  trail_of (state o) = trail_of w
  ∧ alerts (case (state o)) = alerts (case w)
  ∧ uuid (case (state o)) = uuid (case w)
  ∧ logged o = lg
  ∧ (∀ h, key (rows (state o) h) = key (rows w h))
  ∧ (result o = Ok ()
     ↔ alerts (case w) ≠ [] ∧ ∀ s, result_data (rows w a) ≠ RStr s).
Proof.
  cbv zeta. destruct w as [c r].
  unfold record_outcome, Case.when, Timeline.index, at_row,
    setitem_result_data, zoom, on_case, on_row, trail_of.
  unfold_monad. simpl.
  destruct (playbook_done (r a)), (result_request_retry (r a)),
    (result_data (r a)) eqn:Hd, (alerts c) eqn:Ha; simpl.
  all: rewrite ?Ha; simpl; rewrite ?fn_lookup_insert; simpl; rewrite ?Hd; simpl.
  all: repeat split; try done.
  all: try (intros h; unfold insert, fn_insert; repeat case_decide; subst; done).
  all: try (by intros [? ?]).
  all: try (intros _; split; [done|]; intros s Hs; rewrite Hd in Hs; done).
  all: try (intros [_ Hs]; exfalso; by eapply Hs).
Qed.

Lemma filter_none {A} (P : A → Prop) `{∀ x, Decision (P x)} (l : list A) :
  Forall (λ x, ¬ P x) l → filter P l = [].
Proof.
  induction 1 as [|x l Hx Hl IH]; [done|].
  by rewrite filter_cons_False, IH.
Qed.

(** The second half on a trail with at most one row per pair. *)
Lemma replace_row_effect a w lg :
  one_row_per_key w →
  replace_row a w lg
  = Out (Ok ())
      (retrail (filter (λ h, key (rows w h) ≠ key (rows w a)) (trail_of w)
                ++ [a]) w) lg.
Proof.
  intros Hinv. unfold replace_row. rewrite bind_run. unfold gets at 1.
  cbv beta iota. rewrite bind_run.
  pose proof (drop_loop a (trail_of w) [] w lg (length (trail_of w)) eq_refl)
    as Hloop.
  simpl in Hloop. rewrite Hloop; [done|constructor| |done].
  intros i j hi hj Hi Hj Hki Hkj.
  apply (NoDup_lookup _ i j (key (rows w a)) Hinv); unfold trail_keys;
    rewrite list_lookup_fmap; [rewrite Hi|rewrite Hj]; simpl; congruence.
Qed.

(** [update_audit] on a trail with at most one row per pair: no row changes
    its pair; the call either raises before it reaches the trail, or leaves
    the trail without the rows that carried the pair of [a] and with [a] at
    its end. *)
Lemma update_audit_effect ual a w lg :
  one_row_per_key w →
  let o := update_audit ual (Some a) w lg in
  (∀ h, key (rows (state o) h) = key (rows w h))
  ∧ alerts (case (state o)) = alerts (case w)
  ∧ (trail_of (state o) = trail_of w
     ∧ ¬ (alerts (case w) ≠ [] ∧ ∀ s, result_data (rows w a) ≠ RStr s)
     ∨ trail_of (state o)
       = filter (λ h, key (rows w h) ≠ key (rows w a)) (trail_of w) ++ [a]
       ∧ (alerts (case w) ≠ [] ∧ ∀ s, result_data (rows w a) ≠ RStr s)
       ∧ result o = ual (uuid (case w)) (rows (state o) a)).
Proof.
  intros Hinv. cbv zeta. unfold update_audit. rewrite bind_run.
  destruct (record_outcome_effect a w lg) as (Ht & Hal & Hu & Hlg & Hk & Hok).
  destruct (record_outcome a w lg) as [[[]|e] w1 lg1]; simpl in *.
  - assert (Hinv1 : one_row_per_key w1).
    { unfold one_row_per_key, trail_keys in *. rewrite Ht.
      erewrite list_fmap_ext; [exact Hinv|]. intros ? h _. apply Hk. }
    rewrite bind_run, (replace_row_effect a w1 lg1 Hinv1).
    rewrite bind_run. unfold gets, id, lift. simpl.
    split; [done|]. split; [done|]. right.
    rewrite Ht, Hu. split; [|split; [by apply Hok|done]].
    change (trail_of (retrail ?t _)) with t.
    f_equal. apply list_filter_iff. intros h. by rewrite !Hk.
  - split; [done|]. split; [done|]. left. split; [done|].
    intros Hc. apply Hok in Hc. done.
Qed.

Lemma keys_of_same (r r' : loc → AuditLog) (l : list loc) :
  (∀ h, key (r' h) = key (r h)) →
  (λ h, key (r' h)) <$> l = (λ h, key (r h)) <$> l.
Proof. intros Hk. apply list_fmap_ext. intros ? h _. apply Hk. Qed.

Lemma update_audit_keeps_one_row_per_key ual audit w lg :
  one_row_per_key w → one_row_per_key (state (update_audit ual audit w lg)).
Proof.
  intros Hinv. destruct audit as [a|]; [|done].
  destruct (update_audit_effect ual a w lg Hinv) as (Hk & _ & [[Ht _]|(Ht & _)]).
  - unfold one_row_per_key, trail_keys in *.
    by rewrite Ht, (keys_of_same (rows w) _ _ Hk).
  - unfold one_row_per_key, trail_keys in *.
    rewrite Ht, (keys_of_same (rows w) _ _ Hk), fmap_app.
    apply NoDup_app. split; [|split].
    + eapply sublist_NoDup; [exact Hinv|]. apply fmap_sublist, sublist_filter.
    + intros k (h & -> & Hh%list_elem_of_filter)%list_elem_of_fmap.
      simpl. intros Heq%list_elem_of_singleton. by destruct Hh.
    + apply NoDup_singleton.
Qed.

Lemma transitions_keep_key (a : AuditLog) (lg : list log_entry) :
  (∀ m d n now, key (state (set_successful m d n now a lg)) = key a)
  ∧ (∀ i m d now, key (state (set_warning i m d now a lg)) = key a)
  ∧ (∀ i m d e now, key (state (set_error i m d e now a lg)) = key a).
Proof.
  unfold set_error, set_successful, set_warning, setitem_result_data.
  unfold_monad. simpl. repeat split; intros.
  - destruct (result_data a), n; done.
  - destruct (result_data a); done.
  - destruct (result_data a); done.
Qed.

Lemma at_row_keeps_one_row_per_key {A} h (m : M AuditLog A) w lg :
  key (state (m (rows w h) lg)) = key (rows w h) →
  one_row_per_key w → one_row_per_key (state (at_row h m w lg)).
Proof.
  intros Hkey Hinv. unfold one_row_per_key, trail_keys, at_row, zoom in *.
  simpl. change (trail_of {| case := case w; rows := ?r |}) with (trail_of w).
  rewrite (keys_of_same (rows w)); [done|].
  intros h'. unfold insert, fn_insert. case_decide; by subst.
Qed.

Lemma perform_keeps_one_row_per_key ual c w lg :
  one_row_per_key w → one_row_per_key (state (perform ual c w lg)).
Proof.
  intros Hinv. destruct (transitions_keep_key (rows w
    match c with
    | CallUpdateAudit _ => 0
    | CallSetSuccessful h _ _ _ _ | CallSetWarning h _ _ _ _
    | CallSetError h _ _ _ _ _ => h
    end) lg) as (Hs & Hw & He).
  destruct c; simpl.
  - by apply update_audit_keeps_one_row_per_key.
  - by apply at_row_keeps_one_row_per_key.
  - by apply at_row_keeps_one_row_per_key.
  - by apply at_row_keeps_one_row_per_key.
Qed.

Lemma perform_all_keeps_one_row_per_key ual cs : ∀ w lg,
  one_row_per_key w → one_row_per_key (fst (perform_all ual cs w lg)).
Proof.
  induction cs as [|c cs IH]; intros w lg Hinv; [done|].
  simpl. by apply IH, perform_keeps_one_row_per_key.
Qed.




End AuditFacts.

(** ** Threat-intel scores *)

Module IntelFacts.
Import Intel.




End IntelFacts.

(** ** The whitelist filter *)

Module WhitelistFacts.
Import Whitelist.

Lemma get_from_cache_reads integration e lg :
  let o := get_from_cache integration "LIST" e lg in
  state o = e
  ∧ ∃ wl, result o = Ok wl ∧ clean wl = allow_list e integration.
Proof.
  cbv zeta. unfold get_from_cache, allow_list. unfold_monad.
  destruct (cfg e) as [m|[] p];
    [|destruct (cache e) as [m|content];
      [|destruct (entry content integration "LIST")]|];
    simpl; (split; [done|]; eexists; split; done).
Qed.

Lemma check_category_reads show_ip integration plural category singular e lg :
  let o := check_category show_ip integration plural category singular e lg in
  state o = e
  ∧ ∀ values, alert_indicators (self e) !! category = Some values →
    ∃ b, result o = Ok b
         ∧ (b = true
            ↔ Exists (λ v, occurs v (allow_list e integration) = true) values).
Proof.
  cbv zeta. unfold check_category. rewrite bind_run.
  destruct (get_from_cache_reads integration e lg) as (Hst & wl & Hres & Hwl).
  destruct (get_from_cache integration "LIST" e lg) as [r s l].
  simpl in Hst, Hres. subst s r. rewrite Hwl.
  unfold_monad. simpl.
  destruct (alert_indicators (self e) !! category) as [values|] eqn:Hv;
    simpl; [|done].
  destruct (list_find _ values) as [[i v]|] eqn:Hf; simpl.
  - split; [done|]. intros ? [= <-]. exists true. split; [done|].
    split; [intros _|done].
    apply list_find_Some in Hf as (Hi & Hocc & _).
    apply Exists_exists. exists v. split; [|done].
    by eapply list_elem_of_lookup_2.
  - split; [done|]. intros ? [= <-]. exists false. split; [done|].
    split; [done|]. intros (v & Hin & Hocc)%Exists_exists.
    eapply list_find_None in Hf. eapply Forall_forall in Hf; [|exact Hin].
    done.
Qed.

Lemma whitelisted_iff e vi vd vh vu ve :
  alert_indicators (self e) !! "ip" = Some vi →
  alert_indicators (self e) !! "domain" = Some vd →
  alert_indicators (self e) !! "hash" = Some vh →
  alert_indicators (self e) !! "url" = Some vu →
  alert_indicators (self e) !! "email" = Some ve →
  whitelisted e
  ↔ Exists (λ v, occurs v (allow_list e "global_whitelist_ips") = true) vi
    ∨ Exists (λ v, occurs v (allow_list e "global_whitelist_domains") = true) vd
    ∨ Exists (λ v, occurs v (allow_list e "global_whitelist_hashes") = true) vh
    ∨ Exists (λ v, occurs v (allow_list e "global_whitelist_urls") = true) vu
    ∨ Exists (λ v, occurs v (allow_list e "global_whitelist_emails") = true) ve.
Proof.
  intros Hi Hd Hh Hu He. unfold whitelisted, checked. split.
  - intros (c & i & v & vs & Hin & Hvs & Hv & Hocc).
    assert (Hex : Exists (λ v, occurs v (allow_list e i) = true) vs)
      by (apply Exists_exists; eauto).
    repeat (apply elem_of_cons in Hin as [[= -> ->]|Hin];
            [rewrite Hvs in *; simplify_eq; tauto|]).
    by apply elem_of_nil in Hin.
  - intros [H|[H|[H|[H|H]]]]; apply Exists_exists in H as (v & Hv & Hocc).
    + exists "ip", "global_whitelist_ips", v, vi. set_solver.
    + exists "domain", "global_whitelist_domains", v, vd. set_solver.
    + exists "hash", "global_whitelist_hashes", v, vh. set_solver.
    + exists "url", "global_whitelist_urls", v, vu. set_solver.
    + exists "email", "global_whitelist_emails", v, ve. set_solver.
Qed.

Ltac run_category H :=
  rewrite bind_run;
  match goal with
  | |- context [check_category ?s ?i ?p ?c ?g ?e ?lg] =>
      let Hst := fresh "Hst" in
      destruct (check_category_reads s i p c g e lg) as [Hst H];
      destruct (check_category s i p c g e lg) as [? ? ?];
      simpl in Hst, H; subst
  end.



End WhitelistFacts.

(** ** The playbook dispatch loop *)

Module WorkerFacts.
Import Worker.



Section Loop.

Context (py_import : string → res py_module) (format_exc : exn → string).

Lemma try_playbook_runs c title id name en s lg :
  ordinary_faults py_import name →
  ∃ s' l',
    try_playbook py_import format_exc c title id (name, en) s lg
    = Out (Ok Continue) s' (lg ++ first_line py_import title id (name, en) :: l')
    ∧ (alertHandled s = true → alertHandled s' = true)
    ∧ (∀ mi e, en = true →
         py_import ("integrations." +:+ name) = Ok mi →
         py_import ("playbooks." +:+ name) = Raise e →
         import_fault_line format_exc name e ∈ l').
Proof.
  intros [Hint Hpb]. unfold try_playbook, first_line, check_module_exists.
  cbn [fst snd]. destruct en; cbn [negb].
  2:{ unfold_monad. eexists _, []. split; [reflexivity|]. split; [done|].
      intros; congruence. }
  unfold_monad. cbn [negb].
  destruct (py_import ("integrations." +:+ name)) as [mi|ei] eqn:Hi; cbn.
  2:{ rewrite (Hint ei eq_refl). cbn. eexists _, [].
      split; [reflexivity|]. split; [done|]. intros; congruence. }
  destruct (py_import ("playbooks." +:+ name)) as [m|e] eqn:Hm; cbn.
  2:{ rewrite Hpb. cbn. rewrite <- app_assoc. eexists _, _.
      split; [reflexivity|]. split; [done|].
      intros ? ? _ _ [= <-]. apply list_elem_of_here. }
  destruct Hpb as [Hcan Hhandle].
  unfold getattr, call. unfold_monad.
  destruct (irsoar_can_handle_alert m) as [f|] eqn:Hf; cbn.
  2:{ rewrite <- app_assoc. eexists _, _. split; [reflexivity|].
      split; [done|]. intros; congruence. }
  pose proof (Hcan f c (heap s) [] ) as Hcan'.
  destruct (f c (heap s) []) as [[b|e] h1 l1].
  all: cbv beta iota; cbn [result state logged].
  2:{ assert (He : is_Exception e = true) by (apply Hcan'; reflexivity).
      rewrite He, <- !app_assoc. eexists _, _. split; [reflexivity|].
      split; [done|]. intros; congruence. }
  destruct b.
  2:{ rewrite <- !app_assoc. eexists _, _. split; [reflexivity|].
      split; [done|]. intros; congruence. }
  destruct (irsoar_handle_alert m) as [g|] eqn:Hg; cbv beta iota;
    cbn [result state logged is_Exception].
  2:{ rewrite <- !app_assoc. eexists _, _. split; [reflexivity|].
      split; [done|]. intros; congruence. }
  pose proof (Hhandle g c h1 []) as Hh'.
  cbn [heap set_heap].
  destruct (g c h1 []) as [[[new|]|e] h2 l2]; cbv beta iota;
    cbn [result state logged].
  - rewrite <- !app_assoc. eexists _, _. split; [reflexivity|].
    split; [done|]. intros; congruence.
  - rewrite <- !app_assoc. eexists _, _. split; [reflexivity|].
    split; [done|]. intros; congruence.
  - assert (He : is_Exception e = true) by (apply Hh'; reflexivity).
    rewrite He, <- !app_assoc. eexists _, _. split; [reflexivity|].
    split; [done|]. intros; congruence.
Qed.

Lemma dispatch_loop_runs c title id pbs : ∀ s lg,
  Forall (λ p, ordinary_faults py_import p.1) pbs →
  ∃ s' l',
    for_in pbs (try_playbook py_import format_exc c title id) s lg
    = Out (Ok ()) s' (lg ++ l')
    ∧ (∀ p, p ∈ pbs → first_line py_import title id p ∈ l')
    ∧ (alertHandled s = true → alertHandled s' = true)
    ∧ (∀ name mi e, (name, true) ∈ pbs →
         py_import ("integrations." +:+ name) = Ok mi →
         py_import ("playbooks." +:+ name) = Raise e →
         import_fault_line format_exc name e ∈ l').
Proof.
  induction pbs as [|[name en] pbs IH]; intros s lg Hall.
  - exists s, []. rewrite app_nil_r. split; [done|]. split.
    { by intros p ?%elem_of_nil. }
    split; [done|]. by intros ? ? ? ?%elem_of_nil.
  - apply Forall_cons in Hall as [Hp Hall].
    destruct (try_playbook_runs c title id name en s lg Hp)
      as (s1 & l1 & Hstep & Hh1 & Hf1).
    destruct (IH s1 (lg ++ first_line py_import title id (name, en) :: l1) Hall)
      as (s2 & l2 & Hrest & Hin & Hh2 & Hf2).
    exists s2, (first_line py_import title id (name, en) :: l1 ++ l2).
    simpl for_in. rewrite bind_run, Hstep, Hrest.
    split; [by rewrite <- app_assoc|]. split; [|split; [by auto|]].
    + intros p [->|Hp']%elem_of_cons.
      * apply list_elem_of_here.
      * apply list_elem_of_further, elem_of_app. right. by apply Hin.
    + intros n mi e [Heq|Hp']%elem_of_cons Hi Hm.
      * injection Heq as Hn Hen. subst n.
        apply list_elem_of_further, elem_of_app. left.
        by apply (Hf1 mi e).
      * apply list_elem_of_further, elem_of_app. right. by eapply Hf2.
Qed.

End Loop.

Lemma try_playbook_handles py_import format_exc c title id name mi m f g
    new s lg h1 l1 h2 l2 :
  py_import ("integrations." +:+ name) = Ok mi →
  py_import ("playbooks." +:+ name) = Ok m →
  irsoar_can_handle_alert m = Some f →
  f c (heap s) [] = Out (Ok true) h1 l1 →
  irsoar_handle_alert m = Some g →
  g c h1 [] = Out (Ok (ReturnedCase new)) h2 l2 →
  ∃ s' l',
    try_playbook py_import format_exc c title id (name, true) s lg
    = Out (Ok Continue) s' (lg ++ l')
    ∧ alertHandled s' = true
    ∧ playbooks (heap s' new) = playbooks (h2 new) ++ [name]
    ∧ (∀ other, other ≠ new → heap s' other = h2 other)
    ∧ case_file_history s' = case_file_history s ++ [new]
    ∧ LogEntry INFO ("The playbook " +:+ name +:+ " handled the alert correctly.")
      ∈ l'.
Proof.
  intros Hi Hm Hf Hcan Hg Hh.
  unfold try_playbook, check_module_exists. cbn [fst snd negb].
  unfold_monad. cbn [negb]. rewrite Hi. cbn. rewrite Hm. cbn.
  unfold getattr, call. unfold_monad. rewrite Hf. cbn. rewrite Hcan.
  cbv beta iota; cbn [result state logged]. rewrite Hg.
  cbv beta iota; cbn [result state logged heap set_heap]. rewrite Hh.
  cbv beta iota; cbn [result state logged].
  rewrite <- !app_assoc. eexists _, _. split; [reflexivity|].
  cbn. split; [done|]. split.
  { unfold insert, fn_insert. by case_decide. }
  split.
  { intros other Hne. unfold insert, fn_insert. by case_decide. }
  split; [done|].
  apply list_elem_of_further, elem_of_app. right.
  apply list_elem_of_further, elem_of_app. right.
  apply list_elem_of_here.
Qed.

(** The modules of the worked examples raise nothing outside
    [Exception]. *)
Ltac ordinary_example :=
  split;
  [ intros e He; vm_compute in He; discriminate
  | vm_compute; first
      [ reflexivity
      | split; intros f c h l e [= <-] He; vm_compute in He;
        first [discriminate | by injection He as <-] ] ].

Lemma second_fails_ordinary :
  Forall (λ p, ordinary_faults second_fails p.1) three_playbooks.
Proof. repeat apply Forall_cons_2; [ordinary_example..|apply Forall_nil_2]. Qed.

Lemma two_takers_ordinary :
  Forall (λ p, ordinary_faults two_takers p.1) [("PB_B", true); ("PB_C", true)].
Proof. repeat apply Forall_cons_2; [ordinary_example..|apply Forall_nil_2]. Qed.





End WorkerFacts.
